(** * Banks ETL: extraction and currency transformation

    A shallow embedding of [Banks_Project.py]: the HTML table scraper
    [extract], the currency conversion [transform], the two loaders and the
    orchestration under [__main__], together with the parts of the Python
    runtime they rely on (text, binary64 arithmetic, the BeautifulSoup tree
    API, a small view of pandas data frames, exceptions). *)

From Stdlib Require Import ZArith NArith Ascii String List Bool Lia.
From Stdlib Require Import Floats.SpecFloat.
From stdpp Require Import base option list strings gmap.

Local Open Scope string_scope.

(** ** Python text *)

(** A Python [str] is a sequence of Unicode code points. *)
Module PyStr.

Abbreviation t := (list N).

(** An ASCII literal as a [str]. *)
Definition lit (s : string) : t :=
  List.map N_of_ascii (list_ascii_of_string s).

(** [str.isspace] on one code point: the characters Python classifies as
    whitespace. *)
Definition isspace (c : N) : bool :=
  ((9 <=? c) && (c <=? 13) || (28 <=? c) && (c <=? 32)
   || (c =? 133) || (c =? 160) || (c =? 5760)
   || (8192 <=? c) && (c <=? 8202)
   || (c =? 8232) || (c =? 8233) || (c =? 8239) || (c =? 8287)
   || (c =? 12288))%N.

(** Dropping the leading, the trailing, and both kinds of characters of a
    class. *)
Fixpoint lstrip_by (space : N -> bool) (s : t) : t :=
  match s with
  | c :: s' => if space c then lstrip_by space s' else s
  | [] => []
  end.

Definition rstrip_by (space : N -> bool) (s : t) : t :=
  rev (lstrip_by space (rev s)).

Definition strip_by (space : N -> bool) (s : t) : t :=
  rstrip_by space (lstrip_by space s).

(** [s.strip()] *)
Definition strip (s : t) : t := strip_by isspace s.

(** [s[:-1]]: everything but the last code point; the empty string stays
    empty. *)
Definition drop_last (s : t) : t := removelast s.

(** [''.join(parts)] *)
Definition join (parts : list t) : t := List.concat parts.

End PyStr.

(** ** Python floats: IEEE 754 binary64 *)

Module Float.

Definition prec : Z := 53.
Definition emax : Z := 1024.

Abbreviation t := spec_float.

Definition zero : t := S754_zero false.
Definition nan : t := S754_nan.

Definition mul (x y : t) : t := SFmul prec emax x y.
Definition div (x y : t) : t := SFdiv prec emax x y.

(** The binary64 nearest to the integer [n] (ties to even). *)
Definition of_Z (n : Z) : t := binary_normalize prec emax n 0 false.

(** The binary64 nearest to [m * 10^e] for a natural mantissa [m], with the
    sign [s]; this is the value [float] gives to a decimal numeral. *)
Definition of_decimal (s : bool) (m : N) (e : Z) : t :=
  match m with
  | N0 => S754_zero s
  | Npos p =>
      match e with
      | Zneg k =>
          let '(q, e', l) :=
            SFdiv_core_binary prec emax (Zpos p) 0 (Zpos (10 ^ k)) 0 in
          binary_round_aux prec emax s q e' l
      | _ => binary_round prec emax s (p * Z.to_pos (10 ^ e)) 0
      end
  end.

(** [numpy.rint]: the nearest integer, ties to even, keeping the sign of a
    zero result. *)
Definition rint (x : t) : t :=
  match x with
  | S754_finite s m e =>
      match e with
      | Zneg k =>
          let d := Z.pow_pos 2 k in
          let q := (Zpos m / d)%Z in
          let r := (Zpos m mod d)%Z in
          let n :=
            match (2 * r ?= d)%Z with
            | Lt => q
            | Gt => (q + 1)%Z
            | Eq => if Z.even q then q else (q + 1)%Z
            end in
          match n with
          | Zpos p => binary_round prec emax s p 0
          | _ => S754_zero s
          end
      | _ => x
      end
  | _ => x
  end.

(** [numpy.round(x, decimals)] for [decimals >= 0] on a float: scale by
    [10 ** decimals], round to an integer, scale back. *)
Definition np_round (x : t) (decimals : N) : t :=
  let f := of_Z (10 ^ Z.of_N decimals) in
  div (rint (mul x f)) f.

End Float.

(** ** Exceptions *)

(** The exception classes the program can meet.  [OSError] stands for the
    I/O failures of [requests.get] and [pandas.read_csv]; its argument is the
    resource that could not be read. *)
Inductive exn :=
| IndexError
| KeyError (key : string)
| TypeError
| ValueError
| OSError (resource : string)
| Exception (msg : string).

Inductive result (A : Type) :=
| Ok (a : A)
| Raise (e : exn).
Arguments Ok {A} a.
Arguments Raise {A} e.

#[global] Instance exn_eq_dec : EqDecision exn.
Proof. solve_decision. Defined.

#[global] Instance result_ret : MRet result := fun _ a => Ok a.
#[global] Instance result_bind : MBind result := fun _ _ f r =>
  match r with
  | Ok a => f a
  | Raise e => Raise e
  end.

(** [try: body except classes: handler] *)
Definition try_except {A} (body : result A) (classes : exn -> bool)
    (handler : result A) : result A :=
  match body with
  | Ok a => Ok a
  | Raise e => if classes e then handler else Raise e
  end.

Definition is_IndexError (e : exn) : bool :=
  match e with IndexError => true | _ => false end.
Definition is_KeyError (e : exn) : bool :=
  match e with KeyError _ => true | _ => false end.
Definition is_TypeError (e : exn) : bool :=
  match e with TypeError => true | _ => false end.
Definition is_ValueError (e : exn) : bool :=
  match e with ValueError => true | _ => false end.

(** [seq[i]] for a non-negative index. *)
Definition getitem {A} (seq : list A) (i : nat) : result A :=
  match seq !! i with
  | Some a => Ok a
  | None => Raise IndexError
  end.

(** ** The grammar of [float] on ASCII text *)

(** [float(s)] following the language reference: surrounding whitespace is
    dropped, then an optional sign and either [inf], [infinity], [nan] (in
    any case) or a decimal numeral with optional fraction and exponent, whose
    digit groups may be separated by single underscores.  Anything else is a
    [ValueError], here [None].  Digits are the ASCII ones; the decimal digits
    of other scripts, which [float] also reads, are not covered, so this
    parser stands for [float] on ASCII text.  The properties that hold for
    every text are stated for an arbitrary [float]. *)
Module FloatSyntax.

Definition is_digit (c : N) : bool := ((48 <=? c) && (c <=? 57))%N.
Definition digit_value (c : N) : N := (c - 48)%N.

Definition lower (c : N) : N :=
  if ((65 <=? c) && (c <=? 90))%N then (c + 32)%N else c.

(** Digits after the first one of a digit part: [(["_"] digit)*].  Returns
    the digits read and the rest of the text. *)
Fixpoint digits_tail (s : PyStr.t) : list N * PyStr.t :=
  match s with
  | c :: s' =>
      if is_digit c then
        let '(ds, r) := digits_tail s' in (c :: ds, r)
      else if (c =? 95)%N then
        match s' with
        | d :: _ => if is_digit d then digits_tail s' else ([], s)
        | [] => ([], s)
        end
      else ([], s)
  | [] => ([], [])
  end.

(** [digitpart ::= digit (["_"] digit)*] *)
Definition digitpart (s : PyStr.t) : option (list N * PyStr.t) :=
  match s with
  | c :: _ => if is_digit c then Some (digits_tail s) else None
  | [] => None
  end.

(** The whitespace [float] drops around a numeral: tab to carriage return
    and space, and the whitespace outside ASCII. *)
Definition is_space (c : N) : bool :=
  ((9 <=? c) && (c <=? 13) || (c =? 32) || (127 <? c) && PyStr.isspace c)%N.

Definition sign (s : PyStr.t) : bool * PyStr.t :=
  match s with
  | 43%N :: r => (false, r)
  | 45%N :: r => (true, r)
  | _ => (false, s)
  end.

Definition digits_value (ds : list N) : N :=
  fold_left (fun acc d => (10 * acc + digit_value d)%N) ds 0%N.

(** [number ::= [digitpart] "." digitpart | digitpart ["."]]: the integer
    digits, the fraction digits and the rest. *)
Definition number (s : PyStr.t) : option (list N * list N * PyStr.t) :=
  match digitpart s with
  | Some (ip, r) =>
      match r with
      | 46%N :: r' =>
          match digitpart r' with
          | Some (fp, r'') => Some (ip, fp, r'')
          | None => Some (ip, [], r')
          end
      | _ => Some (ip, [], r)
      end
  | None =>
      match s with
      | 46%N :: r' =>
          match digitpart r' with
          | Some (fp, r'') => Some ([], fp, r'')
          | None => None
          end
      | _ => None
      end
  end.

(** [exponent ::= ("e" | "E") [sign] digitpart], if one follows. *)
Definition exponent (s : PyStr.t) : option (Z * PyStr.t) :=
  match s with
  | c :: r =>
      if (lower c =? 101)%N then
        let '(neg, r') := sign r in
        match digitpart r' with
        | Some (ds, r'') =>
            let e := Z.of_N (digits_value ds) in
            Some (if neg then (- e)%Z else e, r'')
        | None => None
        end
      else Some (0%Z, s)
  | [] => Some (0%Z, [])
  end.

Definition floatnumber (neg : bool) (s : PyStr.t) : option Float.t :=
  match number s with
  | Some (ip, fp, r) =>
      match exponent r with
      | Some (e, []) =>
          Some (Float.of_decimal neg (digits_value (ip ++ fp))
                  (e - Z.of_nat (length fp)))
      | _ => None
      end
  | None => None
  end.

Definition float_of_str (s : PyStr.t) : option Float.t :=
  let '(neg, r) := sign (PyStr.strip_by is_space s) in
  let word := List.map lower r in
  if decide (word = PyStr.lit "inf" \/ word = PyStr.lit "infinity") then
    Some (S754_infinity neg)
  else if decide (word = PyStr.lit "nan") then Some S754_nan
  else floatnumber neg r.

End FloatSyntax.

(** ** The BeautifulSoup tree *)

Module Soup.

(** The classes of string nodes that [html.parser] builds. *)
Inductive string_class :=
| NavigableString | CData | Comment | Declaration | Doctype
| ProcessingInstruction | Script | Stylesheet | TemplateString.

(** A page element: a tag with its attribute dict and its [contents], or a
    string.  The [BeautifulSoup] object itself is the tag named
    ["[document]"]. *)
#[warnings="-register-all"]
Inductive node :=
| Tag (name : string) (attrs : gmap string PyStr.t) (contents : list node)
| Str (cls : string_class) (text : PyStr.t).

Definition contents (n : node) : list node :=
  match n with
  | Tag _ _ cs => cs
  | Str _ _ => []
  end.

(** [tag.descendants]: every element below [n], in document order. *)
Fixpoint descendants (n : node) : list node :=
  match n with
  | Tag _ _ cs => flat_map (fun c => c :: descendants c) cs
  | Str _ _ => []
  end.

Definition is_tag (name : string) (n : node) : bool :=
  match n with
  | Tag name' _ _ => bool_decide (name' = name)
  | Str _ _ => false
  end.

(** [tag.find_all(name)] *)
Definition find_all (name : string) (n : node) : list node :=
  List.filter (is_tag name) (descendants n).

(** [tag.find(name)]: the first match or [None]. *)
Definition find (name : string) (n : node) : option node :=
  head (find_all name n).

(** [element[key]] for a string key: the attribute of a tag; a string node
    cannot be indexed by a string. *)
Definition getitem_key (n : node) (key : string) : result PyStr.t :=
  match n with
  | Tag _ attrs _ =>
      match attrs !! key with
      | Some v => Ok v
      | None => Raise (KeyError key)
      end
  | Str _ _ => Raise TypeError
  end.

(** [element[:-1]]: a string node is sliced as text.  On a tag, [__getitem__]
    looks the slice object up in the attribute dict, which raises
    [TypeError] (unhashable slice; a [KeyError] from Python 3.12 on). *)
Definition getitem_drop_last (n : node) : result PyStr.t :=
  match n with
  | Str _ s => Ok (PyStr.drop_last s)
  | Tag _ _ _ => Raise TypeError
  end.

(** The string classes [get_text] looks at by default. *)
Definition interesting (c : string_class) : bool :=
  match c with
  | NavigableString | CData => true
  | _ => false
  end.

(** The pieces [get_text(strip=True)] joins: each interesting string below
    [n], stripped on its own, the empty ones left out. *)
Definition stripped_strings (n : node) : list PyStr.t :=
  flat_map
    (fun d =>
       match d with
       | Str c s =>
           if interesting c then
             match PyStr.strip s with
             | [] => []
             | s' => [s']
             end
           else []
       | Tag _ _ _ => []
       end)
    (descendants n).

(** [tag.get_text(strip=True)] *)
Definition get_text_strip (n : node) : PyStr.t :=
  PyStr.join (stripped_strings n).

(** The strings [get_text()] joins: the interesting ones below [n], as they
    are. *)
Definition strings (n : node) : list PyStr.t :=
  flat_map
    (fun d =>
       match d with
       | Str c s => if interesting c then [s] else []
       | Tag _ _ _ => []
       end)
    (descendants n).

(** [tag.get_text()] *)
Definition get_text (n : node) : PyStr.t :=
  PyStr.join (strings n).

End Soup.

(** ** Data frames *)

(** A cell holds text or a float; a missing cell reads as NaN. *)
Inductive cell :=
| CStr (s : PyStr.t)
| CFloat (x : Float.t).

(** A frame is its column labels, in order, and its rows, each a dict from
    label to cell. *)
Record DataFrame := {
  columns : list string;
  rows : list (gmap string cell)
}.

Module Pandas.

(** [pd.DataFrame(columns=labels)] *)
Definition empty (labels : list string) : DataFrame :=
  {| columns := labels; rows := [] |}.

(** [pd.DataFrame([d])] for a dict [d] whose keys are [labels], in
    insertion order. *)
Definition of_dict (labels : list string) (d : gmap string cell)
    : DataFrame :=
  {| columns := labels; rows := [d] |}.

(** [pd.concat([a, b], ignore_index=True)]: the rows of [a] then those of
    [b], over the labels of [a] followed by the new ones of [b]. *)
Definition concat (a b : DataFrame) : DataFrame :=
  {| columns :=
       columns a
         ++ List.filter (fun c => bool_decide (c ∉ columns a)) (columns b);
     rows := rows a ++ rows b |}.

(** [df[label]]: the column as a list. *)
Definition getitem (df : DataFrame) (label : string) : result (list cell) :=
  if decide (label ∈ columns df) then
    Ok (List.map (fun r => default (CFloat Float.nan) (r !! label)) (rows df))
  else Raise (KeyError label).

(** [df[label] = values] for a list of values. *)
Definition setitem (df : DataFrame) (label : string) (values : list cell)
    : result DataFrame :=
  if decide (length values = length (rows df)) then
    Ok {| columns :=
            if decide (label ∈ columns df) then columns df
            else columns df ++ [label];
          rows := zip_with (fun r v => <[label := v]> r) (rows df) values |}
  else Raise ValueError.

(** [frame.set_index('Currency').to_dict()['Rate']] on a frame given by its
    (Currency, Rate) lines: a later line overrides an earlier one. *)
Definition to_dict (lines : list (string * Float.t)) : gmap string Float.t :=
  fold_left (fun m kv => <[kv.1 := kv.2]> m) lines ∅.

End Pandas.

(** [d[key]] on a dict. *)
Definition dict_getitem {V} (d : gmap string V) (key : string) : result V :=
  match d !! key with
  | Some v => Ok v
  | None => Raise (KeyError key)
  end.

(** [x * r] for a cell [x] of a frame and a float [r]. *)
Definition cell_mul (x : cell) (r : Float.t) : result Float.t :=
  match x with
  | CFloat f => Ok (Float.mul f r)
  | CStr _ => Raise TypeError
  end.

(** A list comprehension whose body may raise. *)
Fixpoint comprehension {A B} (body : A -> result B) (xs : list A)
    : result (list B) :=
  match xs with
  | [] => Ok []
  | x :: xs' =>
      y ← body x;
      ys ← comprehension body xs';
      Ok (y :: ys)
  end.

(** ** The world the program runs in *)

(** What the program reads: the clock, the web and the rate file; and what it
    writes: the log file, CSV files, the tables of the SQLite database and the
    terminal. *)
Record world := {
  ticks : nat;
  (** [datetime.now().strftime(...)] at the n-th reading of the clock *)
  strftime_now : nat -> string;
  (** the document behind a URL as [BeautifulSoup(page, 'html.parser')] builds
      it, if [requests.get] can fetch it *)
  web : string -> option Soup.node;
  (** the (Currency, Rate) lines of a rate file, if [pd.read_csv] can load
      it *)
  rate_files : string -> option (list (string * Float.t));
  (** the lines of [code_log.txt] *)
  code_log : list string;
  (** the frames written by [to_csv], by path *)
  csv_files : gmap string DataFrame;
  (** the tables of the database, by name *)
  db_tables : gmap string DataFrame;
  (** what was printed *)
  stdout : list string
}.

(** A computation that may change the world and may raise; what it did to the
    world before raising stays done. *)
Definition M (A : Type) : Type := world -> world * result A.

#[global] Instance M_ret : MRet M := fun _ a w => (w, Ok a).
#[global] Instance M_bind : MBind M := fun _ _ f m w =>
  match m w with
  | (w', Ok a) => f a w'
  | (w', Raise e) => (w', Raise e)
  end.

Definition lift {A} (r : result A) : M A := fun w => (w, r).

Definition set_log (w : world) (l : list string) : world :=
  {| ticks := ticks w; strftime_now := strftime_now w; web := web w;
     rate_files := rate_files w; code_log := l; csv_files := csv_files w;
     db_tables := db_tables w; stdout := stdout w |}.

Definition set_csv_files (w : world) (fs : gmap string DataFrame) : world :=
  {| ticks := ticks w; strftime_now := strftime_now w; web := web w;
     rate_files := rate_files w; code_log := code_log w; csv_files := fs;
     db_tables := db_tables w; stdout := stdout w |}.

Definition set_db_tables (w : world) (ts : gmap string DataFrame) : world :=
  {| ticks := ticks w; strftime_now := strftime_now w; web := web w;
     rate_files := rate_files w; code_log := code_log w;
     csv_files := csv_files w; db_tables := ts; stdout := stdout w |}.

(** Reading the clock moves it on. *)
Definition tick (w : world) : world :=
  {| ticks := S (ticks w); strftime_now := strftime_now w; web := web w;
     rate_files := rate_files w; code_log := code_log w;
     csv_files := csv_files w; db_tables := db_tables w; stdout := stdout w |}.

Definition set_stdout (w : world) (out : list string) : world :=
  {| ticks := ticks w; strftime_now := strftime_now w; web := web w;
     rate_files := rate_files w; code_log := code_log w;
     csv_files := csv_files w; db_tables := db_tables w; stdout := out |}.

(** [soup = BeautifulSoup(requests.get(url).text, 'html.parser')] *)
Definition get_soup (url : string) : M Soup.node := fun w =>
  match web w url with
  | Some soup => (w, Ok soup)
  | None => (w, Raise (OSError url))
  end.

(** [pd.read_csv(csv_path)] *)
Definition read_csv (csv_path : string) : M (list (string * Float.t)) :=
  fun w =>
    match rate_files w csv_path with
    | Some lines => (w, Ok lines)
    | None => (w, Raise (OSError csv_path))
    end.

(** [df.to_csv(output_path, index=False)] *)
Definition to_csv (df : DataFrame) (output_path : string) : M unit := fun w =>
  (set_csv_files w (<[output_path := df]> (csv_files w)), Ok tt).

(** [df.to_sql(table_name, sql_connection, if_exists='replace', index=False)] *)
Definition to_sql (df : DataFrame) (table_name : string) : M unit := fun w =>
  (set_db_tables w (<[table_name := df]> (db_tables w)), Ok tt).

(** [print(line)] *)
Definition print (line : string) : M unit := fun w =>
  (set_stdout w (stdout w ++ [line]), Ok tt).

(** ** The program *)

Definition newline : string := String (ascii_of_nat 10) EmptyString.

(** The line [timestamp + ': ' + message + '\n'] at the current time. *)
Definition log_line (w : world) (message : string) : string :=
  let timestamp := strftime_now w (ticks w) in
  timestamp ++ ": " ++ message ++ newline.

Definition log_progress (message : string) : M unit := fun w =>
  let line := log_line w message in
  (set_log (tick w) (code_log w ++ [line]), Ok tt).

Section Program.

(** The value the built-in [float] gives to a text, [None] when it rejects
    the text. *)
Variable parse_float : PyStr.t -> option Float.t.

(** [float(s)] for a text [s]. *)
Definition py_float (s : PyStr.t) : result Float.t :=
  match parse_float s with
  | Some x => Ok x
  | None => Raise ValueError
  end.

(** [cursor.execute(query); cursor.fetchall()] on the tables of the
    database, each result row printed as a line. *)
Variable fetchall : gmap string DataFrame -> string -> list string.

(** The name of a bank from the cells of its row (lines 60-64). *)
Definition bank_name_of (col : list Soup.node) : result PyStr.t :=
  try_except
    (c ← getitem col 1;
     a ← getitem (Soup.find_all "a" c) 1;
     Soup.getitem_key a "title")
    (fun e => is_IndexError e || is_KeyError e || is_TypeError e)
    (c ← getitem col 1;
     Ok (Soup.get_text_strip c)).

(** The market capitalisation from the cells of a row (lines 68-74). *)
Definition market_cap_of (col : list Soup.node) : result Float.t :=
  try_except
    (c ← getitem col 2;
     raw_market_cap ← getitem (Soup.contents c) 0;
     market_cap_str ← Soup.getitem_drop_last raw_market_cap;
     py_float market_cap_str)
    (fun e => is_IndexError e || is_ValueError e)
    (Ok Float.zero).

(** One turn of the loop over the rows (lines 53-84). *)
Definition extract_row (df : DataFrame) (row : Soup.node)
    : result DataFrame :=
  match Soup.find "td" row with
  | Some _ =>
      let col := Soup.find_all "td" row in
      if (length col <? 3)%nat then Ok df
      else
        bank_name ← bank_name_of col;
        market_cap_float ← market_cap_of col;
        let data_dict : gmap string cell :=
          <["MC_USD_Billion" := CFloat market_cap_float]>
            (<["Name" := CStr bank_name]> ∅) in
        let df_temp :=
          Pandas.of_dict ["Name"; "MC_USD_Billion"] data_dict in
        Ok (Pandas.concat df df_temp)
  | None => Ok df
  end.

(** The loop [for row in rows] (line 52). *)
Fixpoint extract_rows (df : DataFrame) (rows : list Soup.node)
    : result DataFrame :=
  match rows with
  | [] => Ok df
  | row :: rows' =>
      df' ← extract_row df row;
      extract_rows df' rows'
  end.

(** What [extract] does with the parsed page (lines 39-84). *)
Definition extract_soup (soup : Soup.node) (table_attribs : list string)
    : result DataFrame :=
  let df := Pandas.empty table_attribs in
  let tables := Soup.find_all "tbody" soup in
  match tables with
  | [] => Raise (Exception "No <tbody> found in the page")
  | table0 :: _ =>
      let rows := Soup.find_all "tr" table0 in
      match rows with
      | [] => Raise (Exception "No <tr> rows found in the first <tbody>")
      | _ => extract_rows df rows
      end
  end.

Definition extract (url : string) (table_attribs : list string)
    : M DataFrame :=
  log_progress "Starting data extraction.";;
  soup ← get_soup url;
  df ← lift (extract_soup soup table_attribs);
  log_progress
    "Data extraction complete. Initiating Transformation process.";;
  mret df.

(** One of the three assignments of lines 104-106:
    [df[label] = [np.round(x * exchange_rate[code], 2)
                  for x in df['MC_USD_Billion']]]. *)
Definition add_currency (exchange_rate : gmap string Float.t)
    (label code : string) (df : DataFrame) : result DataFrame :=
  usd ← Pandas.getitem df "MC_USD_Billion";
  values ← comprehension
    (fun x =>
       rate ← dict_getitem exchange_rate code;
       y ← cell_mul x rate;
       Ok (CFloat (Float.np_round y 2)))
    usd;
  Pandas.setitem df label values.

(** Lines 104-106 for a given rate dict. *)
Definition transform_columns (df : DataFrame)
    (exchange_rate : gmap string Float.t) : result DataFrame :=
  df ← add_currency exchange_rate "MC_GBP_Billion" "GBP" df;
  df ← add_currency exchange_rate "MC_EUR_Billion" "EUR" df;
  add_currency exchange_rate "MC_INR_Billion" "INR" df.

Definition transform (df : DataFrame) (csv_path : string) : M DataFrame :=
  log_progress "Starting data transformation.";;
  exchange_rate_df ← read_csv csv_path;
  let exchange_rate := Pandas.to_dict exchange_rate_df in
  df ← lift (transform_columns df exchange_rate);
  log_progress "Data transformation complete. Initiating Loading process.";;
  mret df.

Definition load_to_csv (df : DataFrame) (output_path : string) : M unit :=
  log_progress "Saving data to CSV.";;
  to_csv df output_path;;
  log_progress "Data saved to CSV file.".

Definition load_to_db (df : DataFrame) (table_name : string) : M unit :=
  log_progress "Saving data to Database.";;
  to_sql df table_name;;
  log_progress "Data loaded to Database as a table, Executing queries.".

Fixpoint print_all (lines : list string) : M unit :=
  match lines with
  | [] => mret tt
  | row :: lines' => print row;; print_all lines'
  end.

Definition run_query (query_statement : string) : M unit :=
  log_progress ("Executing Query: " ++ query_statement);;
  results ← (fun w => (w, Ok (fetchall (db_tables w) query_statement)));
  print (newline ++ "Query Statement: " ++ query_statement);;
  print_all results;;
  log_progress "Query execution completed".

Definition url : string :=
  "https://web.archive.org/web/20230908091635/https://en.wikipedia.org/wiki/List_of_largest_banks".
Definition table_attributes : list string := ["Name"; "MC_USD_Billion"].
Definition csv_path : string :=
  "https://cf-courses-data.s3.us.cloud-object-storage.appdomain.cloud/IBMSkillsNetwork-PY0221EN-Coursera/labs/v2/exchange_rate.csv".
Definition output_csv_path : string := "./Largest_banks_data.csv".

(** The script under [if __name__ == "__main__"].  The connection to
    [Banks.db] is the table store [db_tables] of the world; opening and
    closing it leaves no trace. *)
Definition main : M unit :=
  log_progress "Preliminaries complete. Initiating ETL process.";;
  df_extracted ← extract url table_attributes;
  df_transformed ← transform df_extracted csv_path;
  load_to_csv df_transformed output_csv_path;;
  load_to_db df_transformed "Largest_banks";;
  run_query "SELECT * FROM Largest_banks";;
  run_query "SELECT AVG(MC_GBP_Billion) FROM Largest_banks";;
  run_query "SELECT Name FROM Largest_banks LIMIT 5";;
  log_progress "Server Connection closed. Process Complete.".

End Program.

(** [run_query] over an arbitrary database engine: [execute tables query]
    is what [cursor.execute(query)] followed by [cursor.fetchall()] does to
    the tables [tables], namely the tables it leaves and either the rows it
    returns, as they print, or the exception it raises.  The [run_query] of
    the script is the case of an engine that answers every query and leaves
    the tables alone. *)
Definition run_query_on
    (execute : gmap string DataFrame -> string
               -> gmap string DataFrame * result (list string))
    (query_statement : string) : M unit :=
  log_progress ("Executing Query: " ++ query_statement);;
  results ← (fun w =>
               let '(tables, r) := execute (db_tables w) query_statement in
               (set_db_tables w tables, r));
  print (newline ++ "Query Statement: " ++ query_statement);;
  print_all results;;
  log_progress "Query execution completed".

(** * Vocabulary of the properties *)

(** A row yields a record when it has a data cell and at least three of them
    (lines 53 and 56). *)
Definition eligible (row : Soup.node) : bool :=
  match Soup.find "td" row with
  | Some _ => negb (length (Soup.find_all "td" row) <? 3)%nat
  | None => false
  end.

(** The dict built at lines 77-80. *)
Definition record (bank_name : PyStr.t) (market_cap : Float.t)
    : gmap string cell :=
  <["MC_USD_Billion" := CFloat market_cap]> (<["Name" := CStr bank_name]> ∅).

(** The frame [df] with one more record. *)
Definition append_record (df : DataFrame) (r : gmap string cell) : DataFrame :=
  Pandas.concat df (Pandas.of_dict ["Name"; "MC_USD_Billion"] r).

(** A row of a frame that carries a name and a float metric. *)
Definition is_record (r : gmap string cell) : bool :=
  match r !! "Name", r !! "MC_USD_Billion" with
  | Some (CStr _), Some (CFloat _) => true
  | _, _ => false
  end.

(** A frame as [extract] hands it to [transform]: it has the metric column
    and every row is a record. *)
Definition RecordSet (df : DataFrame) : Prop :=
  "MC_USD_Billion" ∈ columns df /\ forallb is_record (rows df) = true.

(** The metric of a record; a missing cell reads as NaN. *)
Definition usd_of (r : gmap string cell) : Float.t :=
  match r !! "MC_USD_Billion" with
  | Some (CFloat x) => x
  | _ => Float.nan
  end.

(** The sinks of a world: the CSV files and the database tables. *)
Definition sinks (w : world) : gmap string DataFrame * gmap string DataFrame :=
  (csv_files w, db_tables w).

(** [r] is the record the loop adds for the row [row]: its name and its
    metric as lines 60-74 compute them. *)
Definition emitted (parse_float : PyStr.t -> option Float.t)
    (row : Soup.node) (r : gmap string cell) : Prop :=
  exists bank_name market_cap,
    bank_name_of (Soup.find_all "td" row) = Ok bank_name
    /\ market_cap_of parse_float (Soup.find_all "td" row) = Ok market_cap
    /\ r = record bank_name market_cap.

(** A row once the column [label] holds its metric converted at [rate]. *)
Definition converted (label : string) (rate : Float.t)
    (r : gmap string cell) : gmap string cell :=
  <[label := CFloat (Float.np_round (Float.mul (usd_of r) rate) 2)]> r.

(** The frame [df] with the column [label] set, its rows now [new_rows]. *)
Definition with_column (label : string) (df : DataFrame)
    (new_rows : list (gmap string cell)) : DataFrame :=
  {| columns :=
       if decide (label ∈ columns df) then columns df
       else (columns df ++ [label])%list;
     rows := new_rows |}.

(** The row [r] after the three assignments. *)
Definition converted3 (gbp eur inr : Float.t) (r : gmap string cell)
    : gmap string cell :=
  <["MC_INR_Billion" := CFloat (Float.np_round (Float.mul (usd_of r) inr) 2)]>
    (<["MC_EUR_Billion" :=
         CFloat (Float.np_round (Float.mul (usd_of r) eur) 2)]>
       (<["MC_GBP_Billion" :=
            CFloat (Float.np_round (Float.mul (usd_of r) gbp) 2)]> r)).

(** A text fragment as [get_text(strip=True)] keeps it: stripped, and left
    out when nothing remains. *)
Definition kept_fragment (s : PyStr.t) : list PyStr.t :=
  match PyStr.strip s with
  | [] => []
  | s' => [s']
  end.

(** The third cell of [row], if it starts with anything, starts with text. *)
Definition metric_starts_with_text (row : Soup.node) : Prop :=
  forall c name attrs cs rest,
    Soup.find_all "td" row !! 2 = Some c ->
    Soup.contents c ≠ Soup.Tag name attrs cs :: rest.

(** The two structural errors of [extract]. *)
Definition no_tbody : exn := Exception "No <tbody> found in the page".
Definition no_rows : exn := Exception "No <tr> rows found in the first <tbody>".

Definition transform_started (w : world) : world :=
  (log_progress "Starting data transformation." w).1.

Definition transform_finished (w : world) : world :=
  (log_progress "Data transformation complete. Initiating Loading process."
     (transform_started w)).1.

Definition extract_started (w : world) : world :=
  (log_progress "Starting data extraction." w).1.

Definition extract_finished (w : world) : world :=
  (log_progress "Data extraction complete. Initiating Transformation process."
     (extract_started w)).1.

Definition main_started (w : world) : world :=
  (log_progress "Preliminaries complete. Initiating ETL process." w).1.

(** The third cell of [row] starts with an element. *)
Definition metric_is_element (row : Soup.node) : bool :=
  match Soup.find_all "td" row !! 2 with
  | Some c =>
      match Soup.contents c with
      | Soup.Tag _ _ _ :: _ => true
      | _ => false
      end
  | None => false
  end.

(** A row at which the loop raises: eligible, with an element at the start
    of its third cell. *)
Definition aborting (row : Soup.node) : bool :=
  eligible row && metric_is_element row.

(** The labels of a frame once a record has been appended to it. *)
Definition with_record_labels (cols : list string) : list string :=
  (cols
     ++ List.filter (fun c => bool_decide (c ∉ cols))
          ["Name"; "MC_USD_Billion"])%list.

(** The labels of a frame once the column [label] has been set. *)
Definition add_label (label : string) (cols : list string) : list string :=
  if decide (label ∈ cols) then cols else (cols ++ [label])%list.

(** The labels of a frame after [transform]. *)
Definition with_currency_labels (cols : list string) : list string :=
  add_label "MC_INR_Billion"
    (add_label "MC_EUR_Billion" (add_label "MC_GBP_Billion" cols)).

(** A rate as a rate file gives it: a positive finite float. *)
Definition positive_finite (x : Float.t) : bool :=
  match x with
  | S754_finite false _ _ => true
  | _ => false
  end.

(** The rate dict has no entry for [code]. *)
Definition lacks (exchange_rate : gmap string Float.t) (code : string) : bool :=
  match exchange_rate !! code with
  | Some _ => false
  | None => true
  end.

(** The first of GBP, EUR, INR, in this order, that the rate dict lacks. *)
Definition first_missing (exchange_rate : gmap string Float.t)
    : option string :=
  List.find (lacks exchange_rate) ["GBP"; "EUR"; "INR"].

(** The line [run_query] prints before the rows, and the message it logs
    before it asks the database. *)
Definition statement_line (query : string) : string :=
  newline ++ "Query Statement: " ++ query.

Definition query_started (query : string) : string :=
  "Executing Query: " ++ query.

(** ** Effects on the world *)

(** The lines [log_progress] writes for the messages [msgs], one after the
    other, when the clock stands at its [t]-th reading. *)
Fixpoint stamped (clock : nat -> string) (t : nat) (msgs : list string)
    : list string :=
  match msgs with
  | [] => []
  | m :: msgs' =>
      (clock t ++ ": " ++ m ++ newline) :: stamped clock (S t) msgs'
  end.

(** What a computation did between the worlds [w] and [w']: it logged the
    messages [msgs], each stamped with a new reading of the clock, printed
    the lines [out], left the CSV files as [csv] and the tables as [db], and
    did not touch what the program reads. *)
Definition effect (w w' : world) (msgs out : list string)
    (csv db : gmap string DataFrame) : Prop :=
  code_log w' = (code_log w ++ stamped (strftime_now w) (ticks w) msgs)%list
  /\ ticks w' = length msgs + ticks w
  /\ strftime_now w' = strftime_now w
  /\ web w' = web w
  /\ rate_files w' = rate_files w
  /\ stdout w' = (stdout w ++ out)%list
  /\ csv_files w' = csv
  /\ db_tables w' = db.

(** Running [m] in [w] ends with [r] and has the given effect. *)
Definition runs {A} (m : M A) (w : world) (r : result A)
    (msgs out : list string) (csv db : gmap string DataFrame) : Prop :=
  (m w).2 = r /\ effect w (m w).1 msgs out csv db.

(** What [run_query] prints for a query: the statement, then the rows. *)
Definition printed (fetchall : gmap string DataFrame -> string -> list string)
    (db : gmap string DataFrame) (query : string) : list string :=
  (newline ++ "Query Statement: " ++ query) :: fetchall db query.

(** The three queries of the script. *)
Definition queries : list string :=
  ["SELECT * FROM Largest_banks";
   "SELECT AVG(MC_GBP_Billion) FROM Largest_banks";
   "SELECT Name FROM Largest_banks LIMIT 5"].

(** The messages of a run that goes through, in the order they are logged. *)
Definition messages_of_extract : list string :=
  ["Starting data extraction.";
   "Data extraction complete. Initiating Transformation process."].

Definition messages_of_transform : list string :=
  ["Starting data transformation.";
   "Data transformation complete. Initiating Loading process."].

Definition messages_of_load : list string :=
  ["Saving data to CSV."; "Data saved to CSV file.";
   "Saving data to Database.";
   "Data loaded to Database as a table, Executing queries."].

Definition messages_of_query (query : string) : list string :=
  ["Executing Query: " ++ query; "Query execution completed"].

Definition messages_of_main : list string :=
  (["Preliminaries complete. Initiating ETL process."]
     ++ messages_of_extract ++ messages_of_transform ++ messages_of_load
     ++ flat_map messages_of_query queries
     ++ ["Server Connection closed. Process Complete."])%list.

(** The messages logged up to the point where [extract] or [transform]
    gave up. *)
Definition messages_until_extract : list string :=
  ["Preliminaries complete. Initiating ETL process.";
   "Starting data extraction."].

Definition messages_until_transform : list string :=
  ("Preliminaries complete. Initiating ETL process."
     :: messages_of_extract ++ ["Starting data transformation."])%list.

(** The script from the first load on (lines 165-184), for the transformed
    frame. *)
Definition main_from_load
    (fetchall : gmap string DataFrame -> string -> list string)
    (df_transformed : DataFrame) : M unit :=
  load_to_csv df_transformed output_csv_path;;
  load_to_db df_transformed "Largest_banks";;
  run_query fetchall "SELECT * FROM Largest_banks";;
  run_query fetchall "SELECT AVG(MC_GBP_Billion) FROM Largest_banks";;
  run_query fetchall "SELECT Name FROM Largest_banks LIMIT 5";;
  log_progress "Server Connection closed. Process Complete.".

(** The five labels of a transformed frame. *)
Definition final_columns : list string :=
  ["Name"; "MC_USD_Billion"; "MC_GBP_Billion"; "MC_EUR_Billion";
   "MC_INR_Billion"].

(** ** Sample data *)

Module Sample.

Import Soup.

Definition el (name : string) (cs : list node) : node := Tag name ∅ cs.
Definition text (s : string) : node := Str NavigableString (PyStr.lit s).

(** A decimal literal as Python reads it. *)
Definition dec (s : string) : Float.t :=
  default Float.nan (FloatSyntax.float_of_str (PyStr.lit s)).

Definition dagger : N := 8224.

(** Row A: cells ["1"], [<a><a title='Global Bank'>GB</a></a>],
    ["100.5†"]. *)
Definition row_a : node :=
  el "tr"
    [el "td" [text "1"];
     el "td"
       [el "a" [Tag "a" {["title" := PyStr.lit "Global Bank"]} [text "GB"]]];
     el "td" [Str NavigableString (PyStr.lit "100.5" ++ [dagger])]].

(** Row B: cells ["2"], [<span>Local Bank</span>], ["bad"]. *)
Definition row_b : node :=
  el "tr"
    [el "td" [text "2"];
     el "td" [el "span" [text "Local Bank"]];
     el "td" [text "bad"]].

Definition page (trs : list node) : node :=
  el "[document]" [el "table" [el "tbody" trs]].

(** The rate file with lines GBP 0.8, EUR 0.9, INR 80.0. *)
Definition rate_lines : list (string * Float.t) :=
  [("GBP", dec "0.8"); ("EUR", dec "0.9"); ("INR", dec "80.0")].

(** A world with [doc] at the URL of the script and [lines] as its rate
    file; nothing logged, written or printed yet. *)
Definition world_of (doc : node) (lines : list (string * Float.t)) : world :=
  {| ticks := 0;
     strftime_now := fun n => "2023-09-08-09:16:35";
     web := fun u => if decide (u = url) then Some doc else None;
     rate_files := fun p => if decide (p = csv_path) then Some lines else None;
     code_log := [];
     csv_files := ∅;
     db_tables := ∅;
     stdout := [] |}.

(** The frame [extract] builds from rows A and B. *)
Definition two_banks : DataFrame :=
  {| columns := ["Name"; "MC_USD_Billion"];
     rows := [record (PyStr.lit "Global Bank") (dec "100.5");
              record (PyStr.lit "Local Bank") (dec "0.0")] |}.

(** The second and third cells of row B. *)
Definition name_cell_b : node := el "td" [el "span" [text "Local Bank"]].
Definition metric_cell_b : node := el "td" [text "bad"].

(** A row whose name cell is [First <b>Bank</b>], without anchors. *)
Definition name_cell_c : node := el "td" [text "First "; el "b" [text "Bank"]].
Definition row_c : node :=
  el "tr" [el "td" [text "3"]; name_cell_c; el "td" [text "12.5 "]].

(** A row whose metric is the plain numeral [100.5], nothing after it. *)
Definition metric_cell_d : node := el "td" [text "100.5"].
Definition row_d : node :=
  el "tr" [el "td" [text "4"]; el "td" [text "Plain Bank"]; metric_cell_d].

(** A row whose metric cell starts with an element: [<b>7.5</b>]. *)
Definition metric_cell_e : node := el "td" [el "b" [text "7.5 "]].
Definition row_e : node :=
  el "tr" [el "td" [text "5"]; el "td" [text "Bold Bank"]; metric_cell_e].

(** A row whose metric cell starts with an element that holds no number:
    [<span>n/a</span>]. *)
Definition metric_cell_n : node := el "td" [el "span" [text "n/a"]].
Definition row_n : node :=
  el "tr" [el "td" [text "7"]; el "td" [text "Unrated Bank"]; metric_cell_n].
Definition page_n : node := page [row_n].

(** A row with two data cells only. *)
Definition row_short : node :=
  el "tr" [el "td" [text "6"]; el "td" [text "Short Bank"]].

(** A rate file without a line for EUR. *)
Definition lines_without_eur : list (string * Float.t) :=
  [("GBP", dec "0.8"); ("INR", dec "80.0")].

(** A page whose table has a header row only. *)
Definition header_only : node :=
  page [el "tr" [el "th" [text "Bank name"]]].

Definition five_columns_no_rows : DataFrame :=
  {| columns := ["Name"; "MC_USD_Billion"; "MC_GBP_Billion";
                 "MC_EUR_Billion"; "MC_INR_Billion"];
     rows := [] |}.

(** A SQLite stand-in that answers every query with no rows. *)
Definition no_answers (tables : gmap string DataFrame) (query : string)
    : list string := [].

(** An engine that rejects every statement, and one that answers every
    statement with the same rows; both leave the tables alone. *)
Definition rejecting (e : exn) (tables : gmap string DataFrame)
    (query : string) : gmap string DataFrame * result (list string) :=
  (tables, Raise e).

Definition answering (answer : list string) (tables : gmap string DataFrame)
    (query : string) : gmap string DataFrame * result (list string) :=
  (tables, Ok answer).

(** A record after [transform], from decimal literals. *)
Definition converted_record (name usd gbp eur inr : string)
    : gmap string cell :=
  <["MC_INR_Billion" := CFloat (dec inr)]>
    (<["MC_EUR_Billion" := CFloat (dec eur)]>
       (<["MC_GBP_Billion" := CFloat (dec gbp)]>
          (record (PyStr.lit name) (dec usd)))).

(** The page of the end-to-end example: rows A and B. *)
Definition page_ab : node := page [row_a; row_b].

(** A page with two eligible rows, the second with an element in its metric
    cell, and one row that is too short. *)
Definition page_aes : node := page [row_a; row_e; row_short].

(** A page whose first row has an element in its metric cell, before rows A
    and B. *)
Definition page_eab : node := page [row_e; row_a; row_b].

(** A page without a table body, and one whose table body has no rows. *)
Definition page_no_tbody : node := el "[document]" [el "p" [text "nothing"]].
Definition page_no_rows : node := page [].

(** The world of [world_of] with the web down. *)
Definition offline (lines : list (string * Float.t)) : world :=
  {| ticks := 0;
     strftime_now := fun n => "2023-09-08-09:16:35";
     web := fun u => None;
     rate_files := fun p => if decide (p = csv_path) then Some lines else None;
     code_log := [];
     csv_files := ∅;
     db_tables := ∅;
     stdout := [] |}.

(** The world of [world_of] without a rate file. *)
Definition without_rates (doc : node) : world :=
  {| ticks := 0;
     strftime_now := fun n => "2023-09-08-09:16:35";
     web := fun u => if decide (u = url) then Some doc else None;
     rate_files := fun p => None;
     code_log := [];
     csv_files := ∅;
     db_tables := ∅;
     stdout := [] |}.

(** The table body of [page trs]. *)
Definition tbody (trs : list node) : node := el "tbody" trs.

(** The records of rows A and B. *)
Definition record_a : gmap string cell :=
  record (PyStr.lit "Global Bank") (dec "100.5").
Definition record_b : gmap string cell :=
  record (PyStr.lit "Local Bank") Float.zero.

End Sample.

(** * Proofs *)

(** Membership in a list that is written out. *)
Ltac in_list :=
  repeat first [apply list_elem_of_here | apply list_elem_of_further].

(** ** Running computations *)

Lemma bind_Ok {A B} (m : M A) (f : A -> M B) w w' a :
  m w = (w', Ok a) -> (m ≫= f) w = f a w'.
Proof. intros H. unfold mbind, M_bind. by rewrite H. Qed.

Lemma bind_Raise {A B} (m : M A) (f : A -> M B) w w' e :
  m w = (w', Raise e) -> (m ≫= f) w = (w', Raise e).
Proof. intros H. unfold mbind, M_bind. by rewrite H. Qed.

Lemma log_progress_run message w :
  log_progress message w =
    (set_log (tick w) (code_log w ++ [log_line w message]), Ok tt).
Proof. reflexivity. Qed.

Lemma log_progress_sinks message w :
  sinks (log_progress message w).1 = sinks w.
Proof. reflexivity. Qed.

Lemma log_progress_inputs message w :
  web (log_progress message w).1 = web w
  /\ rate_files (log_progress message w).1 = rate_files w.
Proof. split; reflexivity. Qed.

(** ** Exceptions and handlers *)

Lemma getitem_Some {A} (l : list A) i a :
  l !! i = Some a -> getitem l i = Ok a.
Proof. intros H. unfold getitem. by rewrite H. Qed.

Lemma getitem_None {A} (l : list A) i :
  l !! i = None -> getitem l i = Raise IndexError.
Proof. intros H. unfold getitem. by rewrite H. Qed.

(** ** Tree search *)

Lemma find_all_is_tag name n x :
  x ∈ Soup.find_all name n -> Soup.is_tag name x = true.
Proof.
  unfold Soup.find_all. rewrite list_elem_of_In, filter_In. tauto.
Qed.

Lemma find_all_lookup_tag name n i x :
  Soup.find_all name n !! i = Some x ->
  exists attrs cs, x = Soup.Tag name attrs cs.
Proof.
  intros H. apply list_elem_of_lookup_2, find_all_is_tag in H.
  destruct x as [name' attrs cs|]; simpl in H; [|done].
  apply bool_decide_eq_true in H. subst. eauto.
Qed.

Lemma eligible_length row :
  eligible row = true <-> 3 <= length (Soup.find_all "td" row).
Proof.
  unfold eligible, Soup.find.
  destruct (Soup.find_all "td" row) as [|c col] eqn:E; simpl.
  - split; [done | lia].
  - rewrite negb_true_iff, Nat.ltb_ge. done.
Qed.

(** ** Extraction, row by row *)

Section Extraction.

Variable parse_float : PyStr.t -> option Float.t.

(** The three ways the name lookup can end, and what the name is then. *)
Lemma bank_name_of_cases (col : list Soup.node) c :
  col !! 1 = Some c ->
  bank_name_of col =
    Ok (match Soup.find_all "a" c !! 1 with
        | Some (Soup.Tag _ attrs _) =>
            match attrs !! "title" with
            | Some title => title
            | None => Soup.get_text_strip c
            end
        | _ => Soup.get_text_strip c
        end).
Proof.
  intros Hc. unfold bank_name_of.
  rewrite (getitem_Some _ _ _ Hc). simpl.
  unfold getitem at 1.
  destruct (Soup.find_all "a" c !! 1) as [[name attrs cs|cls s]|]; simpl;
    try reflexivity.
  destruct (attrs !! "title"); reflexivity.
Qed.

Lemma market_cap_of_empty (col : list Soup.node) c :
  col !! 2 = Some c -> Soup.contents c = [] ->
  market_cap_of parse_float col = Ok Float.zero.
Proof.
  intros Hc He. unfold market_cap_of.
  rewrite (getitem_Some _ _ _ Hc). simpl. rewrite He. reflexivity.
Qed.

Lemma market_cap_of_text (col : list Soup.node) c cls s rest :
  col !! 2 = Some c -> Soup.contents c = Soup.Str cls s :: rest ->
  market_cap_of parse_float col =
    try_except (py_float parse_float (PyStr.drop_last s))
      (fun e => is_IndexError e || is_ValueError e) (Ok Float.zero).
Proof.
  intros Hc He. unfold market_cap_of.
  rewrite (getitem_Some _ _ _ Hc). simpl. rewrite He. reflexivity.
Qed.

Lemma market_cap_of_tag (col : list Soup.node) c name attrs cs rest :
  col !! 2 = Some c -> Soup.contents c = Soup.Tag name attrs cs :: rest ->
  market_cap_of parse_float col = Raise TypeError.
Proof.
  intros Hc He. unfold market_cap_of.
  rewrite (getitem_Some _ _ _ Hc). simpl. rewrite He. reflexivity.
Qed.

Lemma extract_row_skip df row :
  eligible row = false -> extract_row parse_float df row = Ok df.
Proof.
  unfold eligible, extract_row.
  destruct (Soup.find "td" row); [|done].
  intros H. apply negb_false_iff in H. by rewrite H.
Qed.

Lemma extract_row_eligible df row :
  eligible row = true ->
  extract_row parse_float df row =
    (bank_name ← bank_name_of (Soup.find_all "td" row);
     market_cap_float ← market_cap_of parse_float (Soup.find_all "td" row);
     Ok (append_record df (record bank_name market_cap_float))).
Proof.
  unfold eligible, extract_row.
  destruct (Soup.find "td" row); [|done].
  intros H. apply negb_true_iff in H. by rewrite H.
Qed.

(** An eligible row has a second and a third cell. *)
Lemma eligible_cells row :
  eligible row = true ->
  exists c1 c2,
    Soup.find_all "td" row !! 1 = Some c1
    /\ Soup.find_all "td" row !! 2 = Some c2.
Proof.
  rewrite eligible_length.
  destruct (Soup.find_all "td" row) as [|c0 [|c1 [|c2 col]]]; simpl;
    try lia.
  eauto.
Qed.

(** What one turn of the loop does to the frame when it does not raise:
    nothing for a row that is not eligible, one more record otherwise. *)
Lemma extract_row_Ok df row df' :
  extract_row parse_float df row = Ok df' ->
  if eligible row then
    exists bank_name market_cap,
      bank_name_of (Soup.find_all "td" row) = Ok bank_name
      /\ market_cap_of parse_float (Soup.find_all "td" row) = Ok market_cap
      /\ df' = append_record df (record bank_name market_cap)
  else df' = df.
Proof.
  destruct (eligible row) eqn:E.
  - rewrite (extract_row_eligible _ _ E).
    destruct (bank_name_of _) as [bank_name|]; simpl; [|done].
    destruct (market_cap_of _ _) as [market_cap|]; simpl; [|done].
    intros [= <-]. eauto.
  - rewrite (extract_row_skip _ _ E). by intros [= <-].
Qed.

Lemma append_record_rows df r : rows (append_record df r) = (rows df ++ [r])%list.
Proof. reflexivity. Qed.

Lemma extract_rows_Ok trs : forall df df',
  extract_rows parse_float df trs = Ok df' ->
  exists recs,
    rows df' = (rows df ++ recs)%list
    /\ Forall2 (emitted parse_float) (List.filter eligible trs) recs.
Proof.
  induction trs as [|row trs IH]; intros df df'; simpl.
  - intros [= <-]. exists []. rewrite app_nil_r. split; [done | constructor].
  - destruct (extract_row parse_float df row) as [df1|] eqn:E1; simpl; [|done].
    intros H. apply IH in H as (recs & Hrows & Hrecs).
    apply extract_row_Ok in E1.
    destruct (eligible row).
    + destruct E1 as (bank_name & market_cap & Hn & Hm & ->).
      exists (record bank_name market_cap :: recs). split.
      * rewrite Hrows, append_record_rows, <- app_assoc. done.
      * constructor; [|done]. by exists bank_name, market_cap.
    + subst df1. eauto.
Qed.

(** The only exception that can leave the loop is the [TypeError] of the
    metric lookup. *)
Lemma extract_row_Raise df row e :
  extract_row parse_float df row = Raise e -> e = TypeError.
Proof.
  intros H.
  destruct (eligible row) eqn:E.
  - rewrite (extract_row_eligible _ _ E) in H.
    destruct (eligible_cells _ E) as (c1 & c2 & H1 & H2).
    rewrite (bank_name_of_cases _ _ H1) in H. simpl in H.
    destruct (Soup.contents c2) as [|[name attrs cs|cls s] rest] eqn:Ec.
    + by rewrite (market_cap_of_empty _ _ H2 Ec) in H.
    + rewrite (market_cap_of_tag _ _ _ _ _ _ H2 Ec) in H. simpl in H.
      congruence.
    + rewrite (market_cap_of_text _ _ _ _ _ H2 Ec) in H.
      unfold py_float in H.
      by destruct (parse_float (PyStr.drop_last s)).
  - by rewrite (extract_row_skip _ _ E) in H.
Qed.

End Extraction.

(** ** Conversion, column by column *)

Lemma comprehension_map {A B C} (body : B -> result C) (f : A -> B)
    (g : A -> C) (P : A -> bool) (xs : list A) :
  (forall x, P x = true -> body (f x) = Ok (g x)) ->
  forallb P xs = true ->
  comprehension body (List.map f xs) = Ok (List.map g xs).
Proof.
  intros Hbody. induction xs as [|x xs IH]; simpl; [done|].
  rewrite andb_true_iff. intros [Hx Hxs].
  rewrite (Hbody x Hx). simpl. rewrite (IH Hxs). reflexivity.
Qed.

Lemma zip_with_map_r {A B C} (f : A -> B -> C) (g : A -> B) (xs : list A) :
  zip_with f xs (List.map g xs) = List.map (fun x => f x (g x)) xs.
Proof. induction xs as [|x xs IH]; simpl; [done|]. by rewrite IH. Qed.

Lemma is_record_usd r :
  is_record r = true ->
  default (CFloat Float.nan) (r !! "MC_USD_Billion") = CFloat (usd_of r).
Proof.
  unfold is_record, usd_of.
  destruct (r !! "Name") as [[]|]; try done.
  destruct (r !! "MC_USD_Billion") as [[]|]; done.
Qed.

Lemma is_record_converted label rate r :
  label ≠ "MC_USD_Billion" -> label ≠ "Name" ->
  is_record r = true -> is_record (converted label rate r) = true.
Proof.
  intros Hu Hn. unfold is_record, converted.
  by rewrite !lookup_insert_ne.
Qed.

Lemma usd_of_converted label rate r :
  label ≠ "MC_USD_Billion" -> usd_of (converted label rate r) = usd_of r.
Proof.
  intros Hu. unfold usd_of at 1, converted. rewrite lookup_insert_ne by done.
  reflexivity.
Qed.

(** With the rate at hand, the assignment goes through and fills the column
    row by row. *)
Lemma add_currency_Ok exchange_rate label code rate df :
  RecordSet df -> exchange_rate !! code = Some rate ->
  add_currency exchange_rate label code df =
    Ok (with_column label df (List.map (converted label rate) (rows df))).
Proof.
  intros [Hcol Hrows] Hrate. unfold add_currency, Pandas.getitem.
  rewrite decide_True by done. simpl.
  rewrite (comprehension_map _ _
             (fun r => CFloat (Float.np_round (Float.mul (usd_of r) rate) 2))
             is_record); [| |done].
  - simpl. unfold Pandas.setitem.
    rewrite decide_True by (by rewrite !length_map).
    rewrite zip_with_map_r. reflexivity.
  - intros r Hr. rewrite (is_record_usd _ Hr).
    unfold dict_getitem. rewrite Hrate. reflexivity.
Qed.

(** Without the rate, the first row already raises. *)
Lemma add_currency_missing exchange_rate label code df :
  RecordSet df -> rows df ≠ [] -> exchange_rate !! code = None ->
  add_currency exchange_rate label code df = Raise (KeyError code).
Proof.
  intros [Hcol Hrows] Hne Hrate. unfold add_currency, Pandas.getitem.
  rewrite decide_True by done. simpl.
  destruct (rows df) as [|r rs]; [done|]. simpl.
  unfold dict_getitem. rewrite Hrate. reflexivity.
Qed.

(** On a frame without rows the rate is never looked up. *)
Lemma add_currency_no_rows exchange_rate label code df :
  "MC_USD_Billion" ∈ columns df -> rows df = [] ->
  add_currency exchange_rate label code df = Ok (with_column label df []).
Proof.
  intros Hcol Hrows. unfold add_currency, Pandas.getitem.
  rewrite decide_True by done. rewrite Hrows. simpl.
  unfold Pandas.setitem. rewrite Hrows. reflexivity.
Qed.

Lemma with_column_RecordSet label rate df :
  label ≠ "MC_USD_Billion" -> label ≠ "Name" -> RecordSet df ->
  RecordSet (with_column label df (List.map (converted label rate) (rows df))).
Proof.
  intros Hu Hn [Hcol Hrows]. split; simpl.
  - case_decide; [done|]. apply elem_of_app. by left.
  - rewrite forallb_forall in *. intros r' Hr'.
    apply in_map_iff in Hr' as (r & <- & Hr).
    apply is_record_converted; auto.
Qed.


(** ** Running [transform] *)

(** [transform] logs, reads the rates, computes the columns, and logs again
    if that went through. *)
Lemma transform_run df path w lines :
  rate_files w path = Some lines ->
  transform df path w =
    match transform_columns df (Pandas.to_dict lines) with
    | Ok df' => (transform_finished w, Ok df')
    | Raise e => (transform_started w, Raise e)
    end.
Proof.
  intros H. unfold transform, mbind, M_bind, read_csv, lift. simpl.
  rewrite H. destruct (transform_columns df (Pandas.to_dict lines)); done.
Qed.

Lemma transform_unreadable df path w :
  rate_files w path = None ->
  transform df path w = (transform_started w, Raise (OSError path)).
Proof.
  intros H. unfold transform, mbind, M_bind, read_csv, lift. simpl.
  by rewrite H.
Qed.

(** The first of the three codes that the rate dict lacks raises. *)
Lemma transform_columns_missing df exchange_rate code :
  RecordSet df -> rows df ≠ [] ->
  code ∈ ["GBP"; "EUR"; "INR"] -> exchange_rate !! code = None ->
  exists missing,
    missing ∈ ["GBP"; "EUR"; "INR"]
    /\ exchange_rate !! missing = None
    /\ transform_columns df exchange_rate = Raise (KeyError missing).
Proof.
  intros Hdf Hne Hcode Hnone. unfold transform_columns.
  destruct (exchange_rate !! "GBP") as [gbp|] eqn:Hg.
  2: { exists "GBP". rewrite (add_currency_missing _ _ _ _ Hdf Hne Hg).
       repeat split; [in_list | done]. }
  rewrite (add_currency_Ok _ _ _ _ _ Hdf Hg). simpl.
  pose proof (with_column_RecordSet "MC_GBP_Billion" gbp df
                ltac:(done) ltac:(done) Hdf) as Hdf1.
  set (df1 := with_column "MC_GBP_Billion" df _) in *.
  assert (Hne1 : rows df1 ≠ []).
  { simpl. destruct (rows df); [done | discriminate]. }
  destruct (exchange_rate !! "EUR") as [eur|] eqn:He.
  2: { exists "EUR". rewrite (add_currency_missing _ _ _ _ Hdf1 Hne1 He).
       repeat split; [in_list | done]. }
  rewrite (add_currency_Ok _ _ _ _ _ Hdf1 He). simpl.
  pose proof (with_column_RecordSet "MC_EUR_Billion" eur df1
                ltac:(done) ltac:(done) Hdf1) as Hdf2.
  set (df2 := with_column "MC_EUR_Billion" df1 _) in *.
  assert (Hne2 : rows df2 ≠ []).
  { simpl. destruct (rows df); [done | discriminate]. }
  destruct (exchange_rate !! "INR") as [inr|] eqn:Hi.
  2: { exists "INR". rewrite (add_currency_missing _ _ _ _ Hdf2 Hne2 Hi).
       repeat split; [in_list | done]. }
  exfalso.
  apply elem_of_cons in Hcode as [->|Hcode]; [congruence|].
  apply elem_of_cons in Hcode as [->|Hcode]; [congruence|].
  apply list_elem_of_singleton in Hcode as ->. congruence.
Qed.

(** ** Conversion: the claims *)



(** With rows in the frame, the first code the rate dict lacks raises. *)
Lemma transform_columns_first_missing df exchange_rate missing :
  RecordSet df -> rows df ≠ [] ->
  first_missing exchange_rate = Some missing ->
  transform_columns df exchange_rate = Raise (KeyError missing)
  /\ exchange_rate !! missing = None
  /\ (missing = "GBP"
      \/ missing = "EUR" /\ is_Some (exchange_rate !! "GBP")
      \/ missing = "INR"
         /\ is_Some (exchange_rate !! "GBP")
         /\ is_Some (exchange_rate !! "EUR")).
Proof.
  intros Hdf Hne. unfold first_missing, transform_columns, lacks. simpl.
  destruct (exchange_rate !! "GBP") as [gbp|] eqn:Hg.
  2: { intros [= <-]. rewrite (add_currency_missing _ _ _ _ Hdf Hne Hg).
       split; [done|]. split; [done|]. by left. }
  rewrite (add_currency_Ok _ _ _ _ _ Hdf Hg). simpl.
  pose proof (with_column_RecordSet "MC_GBP_Billion" gbp df
                ltac:(done) ltac:(done) Hdf) as Hdf1.
  set (df1 := with_column "MC_GBP_Billion" df _) in *.
  assert (Hne1 : rows df1 ≠ []).
  { simpl. destruct (rows df); [done | discriminate]. }
  destruct (exchange_rate !! "EUR") as [eur|] eqn:He.
  2: { intros [= <-]. rewrite (add_currency_missing _ _ _ _ Hdf1 Hne1 He).
       split; [done|]. split; [done|]. right; left. eauto. }
  rewrite (add_currency_Ok _ _ _ _ _ Hdf1 He). simpl.
  pose proof (with_column_RecordSet "MC_EUR_Billion" eur df1
                ltac:(done) ltac:(done) Hdf1) as Hdf2.
  set (df2 := with_column "MC_EUR_Billion" df1 _) in *.
  assert (Hne2 : rows df2 ≠ []).
  { simpl. destruct (rows df); [done | discriminate]. }
  destruct (exchange_rate !! "INR") as [inr|] eqn:Hi; [done|].
  intros [= <-]. rewrite (add_currency_missing _ _ _ _ Hdf2 Hne2 Hi).
  split; [done|]. split; [done|]. right; right. eauto.
Qed.

(** A rate dict that lacks one of the three codes has a first one it
    lacks. *)
Lemma first_missing_exists exchange_rate code :
  code ∈ ["GBP"; "EUR"; "INR"] -> exchange_rate !! code = None ->
  exists missing, first_missing exchange_rate = Some missing.
Proof.
  intros Hcode Hnone. unfold first_missing, lacks. simpl.
  destruct (exchange_rate !! "GBP") eqn:Hg; [|eauto].
  destruct (exchange_rate !! "EUR") eqn:He; [|eauto].
  destruct (exchange_rate !! "INR") eqn:Hi; [|eauto].
  exfalso.
  apply elem_of_cons in Hcode as [->|Hcode]; [congruence|].
  apply elem_of_cons in Hcode as [->|Hcode]; [congruence|].
  apply list_elem_of_singleton in Hcode as ->. congruence.
Qed.

(** Without rows in the frame no rate is looked up. *)
Lemma transform_columns_no_rows df exchange_rate :
  "MC_USD_Billion" ∈ columns df -> rows df = [] ->
  transform_columns df exchange_rate =
    Ok {| columns := with_currency_labels (columns df); rows := [] |}.
Proof.
  intros Hcol Hrows. unfold transform_columns.
  rewrite (add_currency_no_rows _ _ _ _ Hcol Hrows). simpl.
  rewrite add_currency_no_rows; [simpl | | done].
  2: { simpl. case_decide; [done|]. apply elem_of_app. by left. }
  rewrite add_currency_no_rows; [done | | done].
  simpl. repeat case_decide; try done;
    repeat (apply elem_of_app; left); done.
Qed.

(** C3, as the code has it.  For every frame of records with at least one row
    and every rate file that lacks one of the codes GBP, EUR, INR,
    [transform] raises [KeyError] for the first missing code in that order:
    GBP if it is missing, else EUR if it is missing, else INR.  It has then
    only logged its start, the sinks are as they were, and nothing placed
    after [transform] in a sequence runs, so the failure comes before any
    sink write.  On a frame of records without rows [transform] returns the
    frame with the three new labels, whatever the rate file holds. *)
Theorem transform_missing_rate_raises df path lines w :
  RecordSet df ->
  rate_files w path = Some lines ->
  (rows df ≠ [] ->
   forall code,
     code ∈ ["GBP"; "EUR"; "INR"] ->
     Pandas.to_dict lines !! code = None ->
     exists missing,
       first_missing (Pandas.to_dict lines) = Some missing
       /\ (missing = "GBP"
           \/ missing = "EUR" /\ is_Some (Pandas.to_dict lines !! "GBP")
           \/ missing = "INR"
              /\ is_Some (Pandas.to_dict lines !! "GBP")
              /\ is_Some (Pandas.to_dict lines !! "EUR"))
       /\ Pandas.to_dict lines !! missing = None
       /\ transform df path w = (transform_started w, Raise (KeyError missing))
       /\ sinks (transform_started w) = sinks w
       /\ forall then_ : DataFrame -> M unit,
            (transform df path ≫= then_) w =
              (transform_started w, Raise (KeyError missing)))
  /\ (rows df = [] ->
      (transform df path w).2 =
        Ok {| columns := with_currency_labels (columns df); rows := [] |}).
Proof.
  intros Hdf Hfile. split.
  - intros Hne code Hcode Hnone.
    destruct (first_missing_exists _ _ Hcode Hnone) as [missing Hfirst].
    destruct (transform_columns_first_missing _ _ _ Hdf Hne Hfirst)
      as (Hrun & Hmiss & Horder).
    exists missing.
    assert (Ht : transform df path w =
                 (transform_started w, Raise (KeyError missing))).
    { by rewrite (transform_run _ _ _ _ Hfile), Hrun. }
    repeat split; try done.
    intros then_. by apply bind_Raise.
  - intros Hrows. destruct Hdf as [Hcol _].
    by rewrite (transform_run _ _ _ _ Hfile),
         (transform_columns_no_rows _ _ Hcol Hrows).
Qed.

Lemma transform_missing_rate_raises_witness :
  (rows Sample.two_banks ≠ [] ->
   forall code,
     code ∈ ["GBP"; "EUR"; "INR"] ->
     Pandas.to_dict Sample.lines_without_eur !! code = None ->
     exists missing,
       first_missing (Pandas.to_dict Sample.lines_without_eur) = Some missing
       /\ (missing = "GBP"
           \/ missing = "EUR"
              /\ is_Some (Pandas.to_dict Sample.lines_without_eur !! "GBP")
           \/ missing = "INR"
              /\ is_Some (Pandas.to_dict Sample.lines_without_eur !! "GBP")
              /\ is_Some (Pandas.to_dict Sample.lines_without_eur !! "EUR"))
       /\ Pandas.to_dict Sample.lines_without_eur !! missing = None
       /\ transform Sample.two_banks csv_path
            (Sample.world_of (Sample.page []) Sample.lines_without_eur) =
            (transform_started
               (Sample.world_of (Sample.page []) Sample.lines_without_eur),
             Raise (KeyError missing))
       /\ sinks
            (transform_started
               (Sample.world_of (Sample.page []) Sample.lines_without_eur)) =
            sinks (Sample.world_of (Sample.page []) Sample.lines_without_eur)
       /\ forall then_ : DataFrame -> M unit,
            (transform Sample.two_banks csv_path ≫= then_)
              (Sample.world_of (Sample.page []) Sample.lines_without_eur) =
              (transform_started
                 (Sample.world_of (Sample.page []) Sample.lines_without_eur),
               Raise (KeyError missing)))
  /\ (rows Sample.two_banks = [] ->
      (transform Sample.two_banks csv_path
         (Sample.world_of (Sample.page []) Sample.lines_without_eur)).2 =
        Ok {| columns := with_currency_labels (columns Sample.two_banks);
              rows := [] |}).
Proof.
  apply (transform_missing_rate_raises Sample.two_banks csv_path
           Sample.lines_without_eur).
  - split; [in_list | reflexivity].
  - reflexivity.
Defined.

(** C3 as stated fails on a frame without rows: the list comprehensions of
    lines 104-106 have nothing to iterate over, the rate dict is never
    indexed, and [transform] returns although the rate file has no EUR line;
    the script then goes on and writes the CSV file. *)
Lemma transform_without_rows_ignores_missing_rate :
  RecordSet (Pandas.empty table_attributes)
  /\ Pandas.to_dict Sample.lines_without_eur !! "EUR" = None
  /\ (transform (Pandas.empty table_attributes) csv_path
        (Sample.world_of Sample.header_only Sample.lines_without_eur)).2 =
       Ok Sample.five_columns_no_rows
  /\ (main FloatSyntax.float_of_str Sample.no_answers
        (Sample.world_of Sample.header_only Sample.lines_without_eur)).2 =
       Ok tt
  /\ csv_files
       (main FloatSyntax.float_of_str Sample.no_answers
          (Sample.world_of Sample.header_only Sample.lines_without_eur)).1
       !! output_csv_path = Some Sample.five_columns_no_rows.
Proof.
  repeat split; try (vm_compute; reflexivity).
  unfold table_attributes. in_list.
Qed.

(** C7, as the code has it.  The value [transform] returns, or the exception
    it raises, is a function of the frame and of the rate file alone: two
    runs in worlds that agree on the rate file end the same way, whatever the
    clock, the log, the sinks and the terminal hold.  [transform] is not free
    of effects, though: it reads the rate file and writes to the log, the
    start line alone when it raises, and the start line followed by the
    completion line when it returns a frame; it leaves the sinks, the
    terminal and its inputs alone. *)
Theorem transform_result_independent_of_world df path w1 w2 :
  rate_files w1 path = rate_files w2 path ->
  (transform df path w1).2 = (transform df path w2).2
  /\ sinks (transform df path w1).1 = sinks w1
  /\ stdout (transform df path w1).1 = stdout w1
  /\ web (transform df path w1).1 = web w1
  /\ rate_files (transform df path w1).1 = rate_files w1
  /\ ((exists df', (transform df path w1).2 = Ok df')
      /\ code_log (transform df path w1).1 =
           (code_log w1
              ++ [log_line w1 "Starting data transformation.";
                  log_line (transform_started w1)
                    "Data transformation complete. Initiating Loading process."])%list
      /\ code_log (transform df path w1).1 =
           (code_log w1
              ++ stamped (strftime_now w1) (ticks w1) messages_of_transform)%list
      \/ (exists e, (transform df path w1).2 = Raise e)
         /\ code_log (transform df path w1).1 =
              (code_log w1 ++ [log_line w1 "Starting data transformation."])%list).
Proof.
  intros Hfiles.
  destruct (rate_files w1 path) as [lines|] eqn:H1.
  - rewrite (transform_run _ _ _ _ H1).
    rewrite (transform_run _ _ _ _ (eq_sym Hfiles)).
    destruct (transform_columns df (Pandas.to_dict lines)) as [df'|e].
    + repeat split. left. split; [eauto|]. simpl.
      rewrite <- app_assoc. done.
    + repeat split. right. split; [eauto | done].
  - rewrite (transform_unreadable _ _ _ H1).
    rewrite (transform_unreadable _ _ _ (eq_sym Hfiles)).
    repeat split. right. split; [eauto | done].
Qed.

Lemma transform_result_independent_of_world_witness :
  (transform Sample.two_banks csv_path
     (Sample.world_of (Sample.page []) Sample.rate_lines)).2 =
  (transform Sample.two_banks csv_path
     (transform Sample.two_banks csv_path
        (Sample.world_of (Sample.page []) Sample.rate_lines)).1).2.
Proof.
  apply (transform_result_independent_of_world Sample.two_banks csv_path
           (Sample.world_of (Sample.page []) Sample.rate_lines)
           (transform Sample.two_banks csv_path
              (Sample.world_of (Sample.page []) Sample.rate_lines)).1
           eq_refl).
Defined.

(** C7 as stated fails: a call of [transform] writes to the log. *)
Lemma transform_writes_log :
  code_log
    (transform Sample.two_banks csv_path
       (Sample.world_of (Sample.page []) Sample.rate_lines)).1
  ≠ code_log (Sample.world_of (Sample.page []) Sample.rate_lines).
Proof. vm_compute. discriminate. Qed.

(** ** Extraction: the claims about one row *)

Lemma stripped_strings_strings n :
  Soup.stripped_strings n = flat_map kept_fragment (Soup.strings n).
Proof.
  unfold Soup.stripped_strings, Soup.strings.
  induction (Soup.descendants n) as [|d ds IH]; simpl; [done|].
  rewrite flat_map_app, <- IH.
  destruct d as [name attrs cs|c s]; simpl; [done|].
  destruct (Soup.interesting c); simpl; [|done].
  unfold kept_fragment. by rewrite app_nil_r.
Qed.

(** With a single text fragment in the cell, stripping the fragment and
    stripping the whole text are the same thing. *)
Lemma get_text_strip_single n s :
  Soup.strings n = [s] ->
  Soup.get_text_strip n = PyStr.strip (Soup.get_text n).
Proof.
  intros H. unfold Soup.get_text_strip, Soup.get_text.
  rewrite stripped_strings_strings, H. simpl. unfold PyStr.join.
  rewrite !app_nil_r. unfold kept_fragment.
  destruct (PyStr.strip s) as [|c s'] eqn:E; simpl; [done|].
  by rewrite app_nil_r.
Qed.

(** C4, as the code has it.  The name of a row comes from a two-tier lookup
    in its second data cell [c]: the [title] attribute of the second anchor
    below [c] when there is one, and otherwise, when [c] has fewer than two
    anchors (IndexError) or the second anchor has no [title] (KeyError),
    the text [get_text(strip=True)] gives for [c].  The handler also lists
    TypeError, which cannot arise since [find_all] only yields tags.  The
    fallback text is the concatenation of the visible text fragments of [c],
    each stripped on its own and the empty ones left out; it is the stripped
    visible text of [c] when [c] has a single text fragment.  In particular a
    cell without anchors gets the fallback text. *)
Theorem bank_name_two_tier (col : list Soup.node) c :
  col !! 1 = Some c ->
  (forall name attrs cs title,
     Soup.find_all "a" c !! 1 = Some (Soup.Tag name attrs cs) ->
     attrs !! "title" = Some title ->
     bank_name_of col = Ok title)
  /\ (Soup.find_all "a" c !! 1 = None ->
      bank_name_of col = Ok (Soup.get_text_strip c))
  /\ (forall name attrs cs,
        Soup.find_all "a" c !! 1 = Some (Soup.Tag name attrs cs) ->
        attrs !! "title" = None ->
        bank_name_of col = Ok (Soup.get_text_strip c))
  /\ (forall a, Soup.find_all "a" c !! 1 = Some a ->
        exists attrs cs, a = Soup.Tag "a" attrs cs)
  /\ (Soup.find_all "a" c = [] ->
      bank_name_of col = Ok (Soup.get_text_strip c))
  /\ Soup.get_text_strip c =
       PyStr.join (flat_map kept_fragment (Soup.strings c))
  /\ (forall s, Soup.strings c = [s] ->
        Soup.get_text_strip c = PyStr.strip (Soup.get_text c)).
Proof.
  intros Hc. pose proof (bank_name_of_cases col c Hc) as Hname.
  repeat split.
  - intros name attrs cs title Ha Ht. by rewrite Hname, Ha, Ht.
  - intros Ha. by rewrite Hname, Ha.
  - intros name attrs cs Ha Ht. by rewrite Hname, Ha, Ht.
  - intros a Ha. by eapply find_all_lookup_tag.
  - intros Ha. by rewrite Hname, Ha.
  - unfold Soup.get_text_strip. by rewrite stripped_strings_strings.
  - apply get_text_strip_single.
Qed.

Lemma bank_name_two_tier_witness :
  bank_name_of (Soup.find_all "td" Sample.row_b) =
    Ok (Soup.get_text_strip Sample.name_cell_b).
Proof.
  destruct (bank_name_two_tier (Soup.find_all "td" Sample.row_b)
              Sample.name_cell_b eq_refl) as (_ & _ & _ & _ & H & _).
  apply H. reflexivity.
Defined.

(** C4 as stated fails on a cell with several text fragments: for
    [First <b>Bank</b>], which has no anchors, the name is [FirstBank], not
    the stripped visible text [First Bank]. *)
Lemma fallback_strips_each_fragment :
  Soup.find_all "a" Sample.name_cell_c = []
  /\ Soup.find_all "td" Sample.row_c !! 1 = Some Sample.name_cell_c
  /\ bank_name_of (Soup.find_all "td" Sample.row_c) = Ok (PyStr.lit "FirstBank")
  /\ PyStr.strip (Soup.get_text Sample.name_cell_c) = PyStr.lit "First Bank"
  /\ bank_name_of (Soup.find_all "td" Sample.row_c)
     ≠ Ok (PyStr.strip (Soup.get_text Sample.name_cell_c)).
Proof. repeat split; try (vm_compute; reflexivity). vm_compute. discriminate. Qed.

(** The metric fallback where it works: for every eligible row whose third
    data cell has no content, or whose third data cell starts with a text
    that [float] rejects once its last character is dropped, the loop does
    not raise and appends exactly one record for the row, whose metric is
    0.0. *)
Theorem metric_defaults_to_zero parse_float df row c :
  eligible row = true ->
  Soup.find_all "td" row !! 2 = Some c ->
  (Soup.contents c = []
   \/ exists cls s rest,
        Soup.contents c = Soup.Str cls s :: rest
        /\ parse_float (PyStr.drop_last s) = None) ->
  exists bank_name,
    extract_row parse_float df row =
      Ok (append_record df (record bank_name Float.zero))
    /\ rows (append_record df (record bank_name Float.zero)) =
         (rows df ++ [record bank_name Float.zero])%list
    /\ record bank_name Float.zero !! "MC_USD_Billion" =
         Some (CFloat Float.zero).
Proof.
  intros Hrow Hc Hcell.
  destruct (eligible_cells _ Hrow) as (c1 & c2 & H1 & H2).
  rewrite (extract_row_eligible _ _ _ Hrow), (bank_name_of_cases _ _ H1).
  eexists. split; [|split; reflexivity].
  simpl. destruct Hcell as [He|(cls & s & rest & He & Hfloat)].
  - by rewrite (market_cap_of_empty _ _ _ Hc He).
  - rewrite (market_cap_of_text _ _ _ _ _ _ Hc He).
    unfold py_float. by rewrite Hfloat.
Qed.

Lemma metric_defaults_to_zero_witness :
  exists bank_name,
    extract_row FloatSyntax.float_of_str (Pandas.empty table_attributes)
      Sample.row_b =
      Ok (append_record (Pandas.empty table_attributes)
            (record bank_name Float.zero))
    /\ rows (append_record (Pandas.empty table_attributes)
               (record bank_name Float.zero)) =
         (rows (Pandas.empty table_attributes)
            ++ [record bank_name Float.zero])%list
    /\ record bank_name Float.zero !! "MC_USD_Billion" =
         Some (CFloat Float.zero).
Proof.
  apply (metric_defaults_to_zero FloatSyntax.float_of_str
           (Pandas.empty table_attributes) Sample.row_b Sample.metric_cell_b).
  - reflexivity.
  - reflexivity.
  - right. exists Soup.NavigableString, (PyStr.lit "bad"), [].
    split; reflexivity.
Defined.

(** C5 on the eligible row whose third data cell is
    [<td><span>n/a</span></td>].  The first content node of the cell is the
    element [<span>n/a</span>], and [float] rejects its text [n/a], with or
    without the last character.  The loop does not give the row a record
    with the metric 0.0: it raises [TypeError], whatever [float] does and
    whatever the frame holds, since a slice of an element is not among the
    exceptions the handler of line 72 lists.  [extract] on the page made of
    this row raises it too and returns no frame, so the row is lost with all
    the others. *)
Theorem metric_fallback_misses_element_node :
  eligible Sample.row_n = true
  /\ Soup.find_all "td" Sample.row_n !! 2 = Some Sample.metric_cell_n
  /\ Soup.contents Sample.metric_cell_n =
       [Sample.el "span" [Sample.text "n/a"]]
  /\ FloatSyntax.float_of_str (PyStr.lit "n/a") = None
  /\ FloatSyntax.float_of_str (PyStr.drop_last (PyStr.lit "n/a")) = None
  /\ (forall parse_float df,
        market_cap_of parse_float (Soup.find_all "td" Sample.row_n) =
          Raise TypeError
        /\ extract_row parse_float df Sample.row_n = Raise TypeError)
  /\ extract_soup FloatSyntax.float_of_str Sample.page_n table_attributes =
       Raise TypeError
  /\ (extract FloatSyntax.float_of_str url table_attributes
        (Sample.world_of Sample.page_n Sample.rate_lines)).2 =
       Raise TypeError.
Proof.
  repeat split; vm_compute; reflexivity.
Qed.

(** C10.  The last character is dropped before parsing, whatever it is: for
    every eligible row whose third data cell starts with a text [s], the
    record gets the value [float] gives to [s] without its last character.
    For the plain numeral [100.5] that is the value of [100.], 100.0. *)
Theorem metric_parsed_without_last_character parse_float df row c cls s rest x :
  eligible row = true ->
  Soup.find_all "td" row !! 2 = Some c ->
  Soup.contents c = Soup.Str cls s :: rest ->
  parse_float (PyStr.drop_last s) = Some x ->
  exists bank_name,
    extract_row parse_float df row = Ok (append_record df (record bank_name x))
    /\ record bank_name x !! "MC_USD_Billion" = Some (CFloat x).
Proof.
  intros Hrow Hc He Hfloat.
  destruct (eligible_cells _ Hrow) as (c1 & c2 & H1 & H2).
  rewrite (extract_row_eligible _ _ _ Hrow), (bank_name_of_cases _ _ H1).
  eexists. split; [|reflexivity].
  simpl. rewrite (market_cap_of_text _ _ _ _ _ _ Hc He).
  unfold py_float. by rewrite Hfloat.
Qed.

Lemma metric_parsed_without_last_character_witness :
  (exists bank_name,
     extract_row FloatSyntax.float_of_str (Pandas.empty table_attributes)
       Sample.row_d =
       Ok (append_record (Pandas.empty table_attributes)
             (record bank_name (Sample.dec "100.0")))
     /\ record bank_name (Sample.dec "100.0") !! "MC_USD_Billion" =
          Some (CFloat (Sample.dec "100.0")))
  /\ FloatSyntax.float_of_str (PyStr.lit "100.5") = Some (Sample.dec "100.5")
  /\ Sample.dec "100.0" ≠ Sample.dec "100.5".
Proof.
  split; [|split; [reflexivity | vm_compute; discriminate]].
  apply (metric_parsed_without_last_character FloatSyntax.float_of_str
           (Pandas.empty table_attributes) Sample.row_d Sample.metric_cell_d
           Soup.NavigableString (PyStr.lit "100.5") []).
  - reflexivity.
  - reflexivity.
  - reflexivity.
  - vm_compute. reflexivity.
Defined.

(** ** Extraction of a page *)

Section Page.

Variable parse_float : PyStr.t -> option Float.t.
Variable fetchall : gmap string DataFrame -> string -> list string.

Lemma extract_rows_Raise trs : forall df e,
  extract_rows parse_float df trs = Raise e -> e = TypeError.
Proof.
  induction trs as [|row trs IH]; intros df e; simpl; [done|].
  destruct (extract_row parse_float df row) as [df1|e1] eqn:E1; simpl.
  - apply IH.
  - intros [= <-]. by eapply extract_row_Raise.
Qed.

(** A row whose third cell starts with an element stops the loop there,
    whatever rows follow. *)
Lemma extract_rows_element_in_metric_cell df row trs c name attrs cs rest :
  eligible row = true ->
  Soup.find_all "td" row !! 2 = Some c ->
  Soup.contents c = Soup.Tag name attrs cs :: rest ->
  extract_rows parse_float df (row :: trs) = Raise TypeError.
Proof.
  intros Hrow Hc He. simpl.
  destruct (eligible_cells _ Hrow) as (c1 & c2 & H1 & H2).
  rewrite (extract_row_eligible _ _ _ Hrow), (bank_name_of_cases _ _ H1).
  simpl. by rewrite (market_cap_of_tag _ _ _ _ _ _ _ Hc He).
Qed.

Lemma extract_row_total df row :
  metric_starts_with_text row ->
  exists df', extract_row parse_float df row = Ok df'.
Proof.
  intros Htext. destruct (eligible row) eqn:Hrow.
  - destruct (eligible_cells _ Hrow) as (c1 & c2 & H1 & H2).
    rewrite (extract_row_eligible _ _ _ Hrow), (bank_name_of_cases _ _ H1).
    simpl.
    destruct (Soup.contents c2) as [|[name attrs cs|cls s] rest] eqn:Ec.
    + rewrite (market_cap_of_empty _ _ _ H2 Ec). simpl. eauto.
    + by destruct (Htext c2 name attrs cs rest H2).
    + rewrite (market_cap_of_text _ _ _ _ _ _ H2 Ec). unfold py_float.
      destruct (parse_float (PyStr.drop_last s)); simpl; eauto.
  - rewrite (extract_row_skip _ _ _ Hrow). eauto.
Qed.

Lemma extract_rows_total trs : forall df,
  Forall metric_starts_with_text trs ->
  exists df', extract_rows parse_float df trs = Ok df'.
Proof.
  induction trs as [|row trs IH]; intros df Htext; simpl; [eauto|].
  inversion Htext as [|? ? Hrow Htrs]; subst.
  destruct (extract_row_total df row Hrow) as [df1 ->]. simpl. by apply IH.
Qed.

(** When no metric cell starts with an element, the page yields one record
    per eligible row of its first table body, in the order of the rows. *)
Lemma extract_soup_one_record_per_eligible_row soup table_attribs table0
    tables :
  Soup.find_all "tbody" soup = table0 :: tables ->
  Soup.find_all "tr" table0 ≠ [] ->
  Forall metric_starts_with_text (Soup.find_all "tr" table0) ->
  exists df,
    extract_soup parse_float soup table_attribs = Ok df
    /\ Forall2 (emitted parse_float)
         (List.filter eligible (Soup.find_all "tr" table0)) (rows df)
    /\ length (rows df) =
         length (List.filter eligible (Soup.find_all "tr" table0)).
Proof.
  intros Htables Hrows Htext. unfold extract_soup. rewrite Htables.
  destruct (Soup.find_all "tr" table0) as [|row trs] eqn:E; [done|].
  destruct (extract_rows_total (row :: trs) (Pandas.empty table_attribs) Htext)
    as [df Hdf].
  exists df. split; [done|].
  apply extract_rows_Ok in Hdf as (recs & Hr & Hrecs). simpl in Hr.
  rewrite Hr. split; [done|]. symmetry. by eapply Forall2_length.
Qed.

(** The three ways [extract_soup] can raise. *)
Lemma extract_soup_Raise soup table_attribs e :
  extract_soup parse_float soup table_attribs = Raise e ->
  (e = no_tbody /\ Soup.find_all "tbody" soup = [])
  \/ (e = no_rows
      /\ exists table0 tables,
           Soup.find_all "tbody" soup = table0 :: tables
           /\ Soup.find_all "tr" table0 = [])
  \/ e = TypeError.
Proof.
  unfold extract_soup.
  destruct (Soup.find_all "tbody" soup) as [|table0 tables] eqn:Et.
  - intros [= <-]. by left.
  - destruct (Soup.find_all "tr" table0) as [|row trs] eqn:Er.
    + intros [= <-]. right; left. split; [done|]. eauto.
    + intros H. right; right. by eapply extract_rows_Raise.
Qed.

Lemma extract_run u table_attribs w soup :
  web w u = Some soup ->
  extract parse_float u table_attribs w =
    match extract_soup parse_float soup table_attribs with
    | Ok df => (extract_finished w, Ok df)
    | Raise e => (extract_started w, Raise e)
    end.
Proof.
  intros H. unfold extract, mbind, M_bind, get_soup, lift. simpl.
  rewrite H. destruct (extract_soup parse_float soup table_attribs); done.
Qed.

(** When [extract] raises, the script stops there with its sinks untouched. *)
Lemma main_extract_raises w soup e :
  web w url = Some soup ->
  extract_soup parse_float soup table_attributes = Raise e ->
  main parse_float fetchall w = (extract_started (main_started w), Raise e)
  /\ sinks (main parse_float fetchall w).1 = sinks w.
Proof.
  intros Hweb He.
  assert (Hmain : main parse_float fetchall w =
                  (extract_started (main_started w), Raise e)).
  { unfold main. rewrite (bind_Ok _ _ w (main_started w) tt) by done.
    apply bind_Raise.
    rewrite (extract_run _ _ _ soup) by done. by rewrite He. }
  split; [done|]. by rewrite Hmain.
Qed.

End Page.

(** ** Extraction of a page: the claims *)

(** C8.  On a page that could be fetched, [extract] raises the exception
    "No <tbody> found in the page" exactly when the page has no table body,
    and "No <tr> rows found in the first <tbody>" exactly when its first
    table body has no row; in both cases the script ends with that exception
    and with the CSV files and the database tables as they were. *)
Theorem structural_errors_abort_the_run parse_float fetchall w soup :
  web w url = Some soup ->
  (forall table_attribs,
     (extract parse_float url table_attribs w).2 = Raise no_tbody
     <-> Soup.find_all "tbody" soup = [])
  /\ (forall table_attribs,
        (extract parse_float url table_attribs w).2 = Raise no_rows
        <-> exists table0 tables,
              Soup.find_all "tbody" soup = table0 :: tables
              /\ Soup.find_all "tr" table0 = [])
  /\ (Soup.find_all "tbody" soup = [] ->
      (main parse_float fetchall w).2 = Raise no_tbody
      /\ sinks (main parse_float fetchall w).1 = sinks w)
  /\ (forall table0 tables,
        Soup.find_all "tbody" soup = table0 :: tables ->
        Soup.find_all "tr" table0 = [] ->
        (main parse_float fetchall w).2 = Raise no_rows
        /\ sinks (main parse_float fetchall w).1 = sinks w).
Proof.
  intros Hweb.
  assert (Hrun : forall table_attribs,
            (extract parse_float url table_attribs w).2 =
            match extract_soup parse_float soup table_attribs with
            | Ok df => Ok df
            | Raise e => Raise e
            end).
  { intros table_attribs. rewrite (extract_run _ _ _ _ soup Hweb).
    by destruct (extract_soup parse_float soup table_attribs). }
  assert (Hnone : forall table_attribs,
            Soup.find_all "tbody" soup = [] ->
            extract_soup parse_float soup table_attribs = Raise no_tbody).
  { intros table_attribs H. unfold extract_soup. by rewrite H. }
  assert (Hempty : forall table_attribs table0 tables,
            Soup.find_all "tbody" soup = table0 :: tables ->
            Soup.find_all "tr" table0 = [] ->
            extract_soup parse_float soup table_attribs = Raise no_rows).
  { intros table_attribs table0 tables H1 H2. unfold extract_soup.
    by rewrite H1, H2. }
  repeat split.
  - rewrite Hrun.
    destruct (extract_soup parse_float soup table_attribs) as [df|e] eqn:E;
      [done|].
    intros [= ->].
    apply extract_soup_Raise in E
      as [[_ H]|[[H _]|H]]; [done | discriminate H | discriminate H].
  - intros H. by rewrite Hrun, (Hnone table_attribs H).
  - rewrite Hrun.
    destruct (extract_soup parse_float soup table_attribs) as [df|e] eqn:E;
      [done|].
    intros [= ->].
    apply extract_soup_Raise in E
      as [[H _]|[[_ H]|H]]; [discriminate H | done | discriminate H].
  - intros (table0 & tables & H1 & H2).
    by rewrite Hrun, (Hempty table_attribs _ _ H1 H2).
  - destruct (main_extract_raises parse_float fetchall w soup no_tbody Hweb
                (Hnone _ H)) as [-> _]. done.
  - by destruct (main_extract_raises parse_float fetchall w soup no_tbody Hweb
                   (Hnone _ H)) as [_ ->].
  - destruct (main_extract_raises parse_float fetchall w soup no_rows Hweb
                (Hempty _ _ _ H H0)) as [-> _]. done.
  - by destruct (main_extract_raises parse_float fetchall w soup no_rows Hweb
                   (Hempty _ _ _ H H0)) as [_ ->].
Qed.

Lemma structural_errors_abort_the_run_witness :
  (main FloatSyntax.float_of_str Sample.no_answers
     (Sample.world_of Sample.page_no_tbody Sample.rate_lines)).2 =
    Raise no_tbody
  /\ sinks (main FloatSyntax.float_of_str Sample.no_answers
              (Sample.world_of Sample.page_no_tbody Sample.rate_lines)).1 =
       sinks (Sample.world_of Sample.page_no_tbody Sample.rate_lines).
Proof.
  destruct (structural_errors_abort_the_run FloatSyntax.float_of_str
              Sample.no_answers
              (Sample.world_of Sample.page_no_tbody Sample.rate_lines)
              Sample.page_no_tbody eq_refl) as (_ & _ & H & _).
  apply H. reflexivity.
Defined.

(** C9.  On the page with rows A and B and the rates GBP 0.8, EUR 0.9,
    INR 80.0, [extract] followed by [transform] returns the frame with the
    records (Global Bank, 100.5, 80.4, 90.45, 8040.0) and
    (Local Bank, 0.0, 0.0, 0.0, 0.0), in this order. *)
Theorem end_to_end_example :
  ((extract FloatSyntax.float_of_str url table_attributes
      ≫= fun df => transform df csv_path)
     (Sample.world_of Sample.page_ab Sample.rate_lines)).2 =
  Ok {| columns := ["Name"; "MC_USD_Billion"; "MC_GBP_Billion";
                    "MC_EUR_Billion"; "MC_INR_Billion"];
        rows :=
          [Sample.converted_record "Global Bank" "100.5" "80.4" "90.45"
             "8040.0";
           Sample.converted_record "Local Bank" "0.0" "0.0" "0.0" "0.0"] |}.
Proof. vm_compute. reflexivity. Qed.

(** C1 on a page with two eligible rows and one row that is too short: the
    second eligible row has the element [<b>7.5</b>] in its metric cell, and
    [extract] raises [TypeError] instead of returning two records. *)
Theorem extract_raises_instead_of_two_records :
  List.map eligible
    (Soup.find_all "tr" (Sample.el "tbody"
                           [Sample.row_a; Sample.row_e; Sample.row_short])) =
    [true; true; false]
  /\ (extract FloatSyntax.float_of_str url table_attributes
        (Sample.world_of Sample.page_aes Sample.rate_lines)).2 =
       Raise TypeError.
Proof. split; vm_compute; reflexivity. Qed.

(** C6 on a page whose first row has the element [<b>7.5</b>] in its metric
    cell: [extract] raises [TypeError] and returns no frame, although rows A
    and B follow; the script ends with that exception. *)
Theorem extract_aborts_on_element_in_metric_cell :
  extract_soup FloatSyntax.float_of_str Sample.page_eab table_attributes =
    Raise TypeError
  /\ (extract FloatSyntax.float_of_str url table_attributes
        (Sample.world_of Sample.page_eab Sample.rate_lines)).2 =
       Raise TypeError
  /\ (main FloatSyntax.float_of_str Sample.no_answers
        (Sample.world_of Sample.page_eab Sample.rate_lines)).2 =
       Raise TypeError.
Proof. repeat split; vm_compute; reflexivity. Qed.

(** * Further properties of the program *)

(** ** A calculus of effects *)

Lemma stamped_app clock t msgs1 msgs2 :
  stamped clock t (msgs1 ++ msgs2) =
    (stamped clock t msgs1 ++ stamped clock (length msgs1 + t) msgs2)%list.
Proof.
  revert t. induction msgs1 as [|m msgs1 IH]; intros t; simpl; [done|].
  rewrite IH. do 3 f_equal. lia.
Qed.

Lemma effect_refl w : effect w w [] [] (csv_files w) (db_tables w).
Proof. unfold effect. simpl. by rewrite !app_nil_r. Qed.

Lemma effect_trans w w1 w2 msgs1 msgs2 out1 out2 csv1 csv2 db1 db2 :
  effect w w1 msgs1 out1 csv1 db1 ->
  effect w1 w2 msgs2 out2 csv2 db2 ->
  effect w w2 (msgs1 ++ msgs2) (out1 ++ out2) csv2 db2.
Proof.
  intros (Hl1 & Ht1 & Hc1 & Hw1 & Hr1 & Ho1 & _ & _)
         (Hl2 & Ht2 & Hc2 & Hw2 & Hr2 & Ho2 & Hcsv & Hdb).
  unfold effect. rewrite Hl2, Hl1, Ht2, Ht1, Hc2, Hc1, Hw2, Hw1, Hr2, Hr1.
  rewrite Ho2, Ho1, stamped_app, length_app, <- !app_assoc.
  repeat split; try done. lia.
Qed.

(** A computation that returns, followed by another one: the second runs in
    the world the first leaves, whose sinks are known. *)
Lemma runs_seq {A B} (m : M A) (f : A -> M B) w a r
    msgs1 msgs2 msgs out1 out2 out csv1 csv2 db1 db2 :
  runs m w (Ok a) msgs1 out1 csv1 db1 ->
  (csv_files (m w).1 = csv1 -> db_tables (m w).1 = db1 ->
   runs (f a) (m w).1 r msgs2 out2 csv2 db2) ->
  msgs = (msgs1 ++ msgs2)%list -> out = (out1 ++ out2)%list ->
  runs (m ≫= f) w r msgs out csv2 db2.
Proof.
  intros [Hr1 He1] H2 -> ->.
  destruct H2 as [Hr2 He2]; [apply He1 | apply He1 |].
  unfold runs.
  assert (Hm : (m ≫= f) w = f a (m w).1).
  { apply bind_Ok. destruct (m w) as [w1 r1]. simpl in Hr1. by subst. }
  rewrite Hm. split; [done|]. by eapply effect_trans.
Qed.

(** A computation that raises: what follows does not run. *)
Lemma runs_bind_Raise {A B} (m : M A) (f : A -> M B) w e msgs out csv db :
  runs m w (Raise e) msgs out csv db ->
  runs (m ≫= f) w (Raise e) msgs out csv db.
Proof.
  intros [Hr He]. unfold runs.
  assert (Hm : (m ≫= f) w = ((m w).1, Raise e)).
  { apply bind_Raise. destruct (m w) as [w1 r1]. simpl in Hr. by subst. }
  by rewrite Hm.
Qed.

Lemma runs_pure {A} (g : world -> result A) w csv db :
  csv_files w = csv -> db_tables w = db ->
  runs (fun w' => (w', g w')) w (g w) [] [] csv db.
Proof. intros <- <-. split; [done | apply effect_refl]. Qed.

Lemma runs_log_progress message w csv db :
  csv_files w = csv -> db_tables w = db ->
  runs (log_progress message) w (Ok tt) [message] [] csv db.
Proof.
  intros <- <-. split; [done|]. unfold effect. simpl. by rewrite app_nil_r.
Qed.

Lemma runs_to_csv df path w csv db :
  csv_files w = csv -> db_tables w = db ->
  runs (to_csv df path) w (Ok tt) [] [] (<[path := df]> csv) db.
Proof.
  intros <- <-. split; [done|]. unfold effect. simpl. by rewrite !app_nil_r.
Qed.

Lemma runs_to_sql df table_name w csv db :
  csv_files w = csv -> db_tables w = db ->
  runs (to_sql df table_name) w (Ok tt) [] [] csv (<[table_name := df]> db).
Proof.
  intros <- <-. split; [done|]. unfold effect. simpl. by rewrite !app_nil_r.
Qed.

Lemma runs_print line w csv db :
  csv_files w = csv -> db_tables w = db ->
  runs (print line) w (Ok tt) [] [line] csv db.
Proof.
  intros <- <-. split; [done|]. unfold effect. simpl. by rewrite !app_nil_r.
Qed.

(** One stage of a sequence, and its last stage. *)
Ltac sinks_known := first [eassumption | reflexivity].
Ltac stage lemma :=
  eapply runs_seq;
    [apply lemma; sinks_known | intros ? ? | done | done].
Ltac last_stage lemma := apply lemma; sinks_known.

Lemma runs_print_all lines : forall w csv db,
  csv_files w = csv -> db_tables w = db ->
  runs (print_all lines) w (Ok tt) [] lines csv db.
Proof.
  induction lines as [|line lines IH]; intros w csv db Hcsv Hdb.
  - by apply (runs_pure (fun _ => Ok tt)).
  - change (print_all (line :: lines))
      with (print line ≫= fun _ => print_all lines).
    stage runs_print. by apply IH.
Qed.

Section Stages.

Variable parse_float : PyStr.t -> option Float.t.
Variable fetchall : gmap string DataFrame -> string -> list string.

Lemma runs_load_to_csv df path w csv db :
  csv_files w = csv -> db_tables w = db ->
  runs (load_to_csv df path) w (Ok tt)
    ["Saving data to CSV."; "Data saved to CSV file."] []
    (<[path := df]> csv) db.
Proof.
  intros Hcsv Hdb. unfold load_to_csv.
  stage runs_log_progress. stage runs_to_csv. last_stage runs_log_progress.
Qed.

Lemma runs_load_to_db df table_name w csv db :
  csv_files w = csv -> db_tables w = db ->
  runs (load_to_db df table_name) w (Ok tt)
    ["Saving data to Database.";
     "Data loaded to Database as a table, Executing queries."] []
    csv (<[table_name := df]> db).
Proof.
  intros Hcsv Hdb. unfold load_to_db.
  stage runs_log_progress. stage runs_to_sql. last_stage runs_log_progress.
Qed.

Lemma runs_run_query query w csv db :
  csv_files w = csv -> db_tables w = db ->
  runs (run_query fetchall query) w (Ok tt) (messages_of_query query)
    (printed fetchall db query) csv db.
Proof.
  intros Hcsv Hdb. unfold run_query.
  stage runs_log_progress.
  eapply runs_seq;
    [apply (runs_pure (fun w' => Ok (fetchall (db_tables w') query)));
       sinks_known
    | intros ? ? | done | done].
  stage runs_print.
  eapply runs_seq; [apply runs_print_all; sinks_known | intros ? ? | done |].
  - last_stage runs_log_progress.
  - unfold printed. simpl. rewrite app_nil_r. by subst db.
Qed.

End Stages.

(** ** The stages of the script *)

Section Script.

Variable parse_float : PyStr.t -> option Float.t.
Variable fetchall : gmap string DataFrame -> string -> list string.

Lemma runs_get_soup u w csv db :
  csv_files w = csv -> db_tables w = db ->
  runs (get_soup u) w
    (match web w u with Some soup => Ok soup | None => Raise (OSError u) end)
    [] [] csv db.
Proof.
  intros <- <-. unfold runs, get_soup.
  destruct (web w u); (split; [done | apply effect_refl]).
Qed.

Lemma runs_read_csv path w csv db :
  csv_files w = csv -> db_tables w = db ->
  runs (read_csv path) w
    (match rate_files w path with
     | Some lines => Ok lines
     | None => Raise (OSError path)
     end)
    [] [] csv db.
Proof.
  intros <- <-. unfold runs, read_csv.
  destruct (rate_files w path); (split; [done | apply effect_refl]).
Qed.

Lemma runs_lift {A} (r : result A) w csv db :
  csv_files w = csv -> db_tables w = db ->
  runs (lift r) w r [] [] csv db.
Proof. intros <- <-. split; [done | apply effect_refl]. Qed.

(** [extract] logs its start, then fetches and scrapes the page; it logs
    its completion only when both went through, and never touches the sinks
    or the terminal. *)
Lemma runs_extract u table_attribs w csv db :
  csv_files w = csv -> db_tables w = db ->
  match web w u with
  | None =>
      runs (extract parse_float u table_attribs) w (Raise (OSError u))
        ["Starting data extraction."] [] csv db
  | Some soup =>
      match extract_soup parse_float soup table_attribs with
      | Ok df =>
          runs (extract parse_float u table_attribs) w (Ok df)
            messages_of_extract [] csv db
      | Raise e =>
          runs (extract parse_float u table_attribs) w (Raise e)
            ["Starting data extraction."] [] csv db
      end
  end.
Proof.
  intros Hcsv Hdb. unfold extract.
  pose proof (runs_get_soup u (log_progress "Starting data extraction." w).1
                csv db) as Hget.
  change (web (log_progress "Starting data extraction." w).1) with (web w)
    in Hget.
  destruct (web w u) as [soup|].
  - destruct (extract_soup parse_float soup table_attribs) as [df|e] eqn:E.
    + stage runs_log_progress.
      eapply runs_seq; [by apply Hget | intros ? ? | done | done].
      cbv beta. rewrite E.
      eapply runs_seq;
        [apply (runs_lift (Ok df)); sinks_known | intros ? ? | done | done].
      stage runs_log_progress.
      by apply (runs_pure (fun _ => Ok df)).
    + eapply runs_seq;
        [apply runs_log_progress; sinks_known | intros ? ? | | done];
        [|symmetry; apply app_nil_r].
      eapply runs_seq; [by apply Hget | intros ? ? | done | done].
      cbv beta. rewrite E. apply runs_bind_Raise. by apply runs_lift.
  - eapply runs_seq;
      [apply runs_log_progress; sinks_known | intros ? ? | | done];
      [|symmetry; apply app_nil_r].
    apply runs_bind_Raise. by apply Hget.
Qed.

(** [transform] logs its start, then reads the rates and converts; it logs
    its completion only when both went through, and never touches the sinks
    or the terminal. *)
Lemma runs_transform df path w csv db :
  csv_files w = csv -> db_tables w = db ->
  match rate_files w path with
  | None =>
      runs (transform df path) w (Raise (OSError path))
        ["Starting data transformation."] [] csv db
  | Some lines =>
      match transform_columns df (Pandas.to_dict lines) with
      | Ok df' =>
          runs (transform df path) w (Ok df') messages_of_transform [] csv db
      | Raise e =>
          runs (transform df path) w (Raise e)
            ["Starting data transformation."] [] csv db
      end
  end.
Proof.
  intros Hcsv Hdb. unfold transform.
  pose proof (runs_read_csv path
                (log_progress "Starting data transformation." w).1 csv db)
    as Hread.
  change (rate_files (log_progress "Starting data transformation." w).1)
    with (rate_files w) in Hread.
  destruct (rate_files w path) as [lines|].
  - destruct (transform_columns df (Pandas.to_dict lines)) as [df'|e] eqn:E.
    + stage runs_log_progress.
      eapply runs_seq; [by apply Hread | intros ? ? | done | done].
      cbv beta zeta. rewrite E.
      eapply runs_seq;
        [apply (runs_lift (Ok df')); sinks_known | intros ? ? | done | done].
      stage runs_log_progress.
      by apply (runs_pure (fun _ => Ok df')).
    + eapply runs_seq;
        [apply runs_log_progress; sinks_known | intros ? ? | | done];
        [|symmetry; apply app_nil_r].
      eapply runs_seq; [by apply Hread | intros ? ? | done | done].
      cbv beta zeta. rewrite E. apply runs_bind_Raise. by apply runs_lift.
  - eapply runs_seq;
      [apply runs_log_progress; sinks_known | intros ? ? | | done];
      [|symmetry; apply app_nil_r].
    apply runs_bind_Raise. by apply Hread.
Qed.

End Script.

(** ** The script as a whole *)

Section Main.

Variable parse_float : PyStr.t -> option Float.t.
Variable fetchall : gmap string DataFrame -> string -> list string.

(** From the first load on nothing can raise: both sinks get the frame, the
    three queries are answered from the new table, and the run is logged to
    its end. *)
Lemma runs_main_from_load df w csv db :
  csv_files w = csv -> db_tables w = db ->
  runs (main_from_load fetchall df) w (Ok tt)
    (messages_of_load ++ flat_map messages_of_query queries
       ++ ["Server Connection closed. Process Complete."])
    (flat_map (printed fetchall (<["Largest_banks" := df]> db)) queries)
    (<[output_csv_path := df]> csv) (<["Largest_banks" := df]> db).
Proof.
  intros Hcsv Hdb. unfold main_from_load.
  eapply runs_seq; [apply runs_load_to_csv; sinks_known | intros ? ? | |].
  eapply runs_seq; [apply runs_load_to_db; sinks_known | intros ? ? | |].
  eapply runs_seq; [apply runs_run_query; sinks_known | intros ? ? | |].
  eapply runs_seq; [apply runs_run_query; sinks_known | intros ? ? | |].
  eapply runs_seq; [apply runs_run_query; sinks_known | intros ? ? | |].
  last_stage runs_log_progress.
  all: reflexivity.
Qed.

(** Every run of the script, by what it meets on its way. *)
Lemma main_outcomes w :
  match web w url with
  | None =>
      runs (main parse_float fetchall) w (Raise (OSError url))
        messages_until_extract [] (csv_files w) (db_tables w)
  | Some soup =>
      match extract_soup parse_float soup table_attributes with
      | Raise e =>
          runs (main parse_float fetchall) w (Raise e)
            messages_until_extract [] (csv_files w) (db_tables w)
      | Ok df =>
          match rate_files w csv_path with
          | None =>
              runs (main parse_float fetchall) w (Raise (OSError csv_path))
                messages_until_transform [] (csv_files w) (db_tables w)
          | Some lines =>
              match transform_columns df (Pandas.to_dict lines) with
              | Raise e =>
                  runs (main parse_float fetchall) w (Raise e)
                    messages_until_transform [] (csv_files w) (db_tables w)
              | Ok df' =>
                  runs (main parse_float fetchall) w (Ok tt)
                    messages_of_main
                    (flat_map
                       (printed fetchall
                          (<["Largest_banks" := df']> (db_tables w)))
                       queries)
                    (<[output_csv_path := df']> (csv_files w))
                    (<["Largest_banks" := df']> (db_tables w))
              end
          end
      end
  end.
Proof.
  set (w0 := (log_progress "Preliminaries complete. Initiating ETL process."
                w).1).
  pose proof (runs_extract parse_float url table_attributes w0
                (csv_files w) (db_tables w) eq_refl eq_refl) as He.
  change (web w0) with (web w) in He.
  change (main parse_float fetchall)
    with (log_progress "Preliminaries complete. Initiating ETL process."
            ≫= fun _ =>
                extract parse_float url table_attributes
                  ≫= fun df =>
                      transform df csv_path
                        ≫= main_from_load fetchall).
  destruct (web w url) as [soup|].
  2: { eapply runs_seq;
         [apply runs_log_progress; sinks_known | intros ? ? | done | done].
       by apply runs_bind_Raise. }
  destruct (extract_soup parse_float soup table_attributes) as [df|e].
  2: { eapply runs_seq;
         [apply runs_log_progress; sinks_known | intros ? ? | done | done].
       by apply runs_bind_Raise. }
  set (w1 := (extract parse_float url table_attributes w0).1).
  assert (Hin : rate_files w1 = rate_files w).
  { destruct He as [_ He]. destruct He as (_ & _ & _ & _ & H & _). exact H. }
  assert (Hsinks : csv_files w1 = csv_files w /\ db_tables w1 = db_tables w).
  { destruct He as [_ He]. destruct He as (_ & _ & _ & _ & _ & _ & H1 & H2).
    by split. }
  destruct Hsinks as [Hcsv Hdb].
  pose proof (runs_transform df csv_path w1 (csv_files w) (db_tables w)
                Hcsv Hdb) as Ht.
  rewrite Hin in Ht.
  destruct (rate_files w csv_path) as [lines|].
  2: { eapply runs_seq;
         [apply runs_log_progress; sinks_known | intros ? ? | done | done].
       eapply runs_seq; [exact He | intros ? ? | done | done].
       by apply runs_bind_Raise. }
  destruct (transform_columns df (Pandas.to_dict lines)) as [df'|e].
  2: { eapply runs_seq;
         [apply runs_log_progress; sinks_known | intros ? ? | done | done].
       eapply runs_seq; [exact He | intros ? ? | done | done].
       by apply runs_bind_Raise. }
  eapply runs_seq;
    [apply runs_log_progress; sinks_known | intros ? ? | done | done].
  eapply runs_seq; [exact He | intros ? ? | done | done].
  eapply runs_seq; [exact Ht | intros ? ? | done | done].
  by apply runs_main_from_load.
Qed.

End Main.

(** ** The frame that [extract] builds *)

Section Frame.

Variable parse_float : PyStr.t -> option Float.t.

Lemma record_label_in label cols :
  label ∈ ["Name"; "MC_USD_Billion"] -> label ∈ with_record_labels cols.
Proof.
  intros Hl. unfold with_record_labels. apply elem_of_app.
  destruct (decide (label ∈ cols)) as [Hin|Hout]; [by left | right].
  apply list_elem_of_In, filter_In. split.
  - by apply list_elem_of_In.
  - by apply bool_decide_eq_true.
Qed.

Lemma with_record_labels_idem cols :
  with_record_labels (with_record_labels cols) = with_record_labels cols.
Proof.
  unfold with_record_labels at 1. simpl.
  rewrite (bool_decide_eq_false_2 ("Name" ∉ with_record_labels cols)).
  2: { intros H. apply H, record_label_in. in_list. }
  rewrite (bool_decide_eq_false_2
             ("MC_USD_Billion" ∉ with_record_labels cols)).
  2: { intros H. apply H, record_label_in. in_list. }
  apply app_nil_r.
Qed.

Lemma extract_rows_columns trs : forall df df',
  extract_rows parse_float df trs = Ok df' ->
  columns df' =
    if existsb eligible trs then with_record_labels (columns df)
    else columns df.
Proof.
  induction trs as [|row trs IH]; intros df df'; simpl.
  - by intros [= <-].
  - destruct (extract_row parse_float df row) as [df1|] eqn:E1; simpl;
      [|done].
    intros H. apply IH in H. apply extract_row_Ok in E1.
    destruct (eligible row); simpl.
    + destruct E1 as (bank_name & market_cap & _ & _ & ->).
      change (columns (append_record df (record bank_name market_cap)))
        with (with_record_labels (columns df)) in H.
      rewrite with_record_labels_idem in H.
      by destruct (existsb eligible trs).
    + by subst df1.
Qed.

Lemma emitted_is_record row r :
  emitted parse_float row r -> is_record r = true.
Proof. by intros (bank_name & market_cap & _ & _ & ->). Qed.

Lemma extract_rows_records trs df df' :
  extract_rows parse_float df trs = Ok df' ->
  forallb is_record (rows df) = true ->
  forallb is_record (rows df') = true.
Proof.
  intros H Hdf. apply extract_rows_Ok in H as (recs & -> & Hrecs).
  rewrite forallb_app, Hdf. simpl.
  induction Hrecs as [|row r trs' recs' Hr _ IH]; simpl; [done|].
  by rewrite (emitted_is_record _ _ Hr).
Qed.

Lemma aborting_cell row :
  aborting row = true ->
  eligible row = true
  /\ exists c name attrs cs rest,
       Soup.find_all "td" row !! 2 = Some c
       /\ Soup.contents c = Soup.Tag name attrs cs :: rest.
Proof.
  unfold aborting, metric_is_element. rewrite andb_true_iff.
  intros [He Hm]. split; [done|].
  destruct (Soup.find_all "td" row !! 2) as [c|]; [|done].
  destruct (Soup.contents c) as [|[name attrs cs|] rest] eqn:Ec; try done.
  by exists c, name, attrs, cs, rest.
Qed.

Lemma not_aborting_text row :
  aborting row = false -> eligible row = true ->
  metric_starts_with_text row.
Proof.
  unfold aborting, metric_is_element. intros H He. rewrite He in H.
  simpl in H. intros c name attrs cs rest Hc Hcontents.
  by rewrite Hc, Hcontents in H.
Qed.

Lemma extract_row_aborting df row :
  aborting row = true -> extract_row parse_float df row = Raise TypeError.
Proof.
  intros H.
  apply aborting_cell in H as (He & c & name & attrs & cs & rest & Hc & Hk).
  pose proof (extract_rows_element_in_metric_cell parse_float df row []
                c name attrs cs rest He Hc Hk) as Hrows.
  simpl in Hrows. by destruct (extract_row parse_float df row).
Qed.

Lemma extract_row_not_aborting df row :
  aborting row = false -> exists df', extract_row parse_float df row = Ok df'.
Proof.
  intros H. destruct (eligible row) eqn:He.
  - apply extract_row_total. by apply not_aborting_text.
  - rewrite (extract_row_skip _ _ _ He). eauto.
Qed.

(** The loop raises exactly when it meets an aborting row. *)
Lemma extract_rows_outcome trs : forall df,
  if existsb aborting trs then
    extract_rows parse_float df trs = Raise TypeError
  else exists df', extract_rows parse_float df trs = Ok df'.
Proof.
  induction trs as [|row trs IH]; intros df; simpl; [eauto|].
  destruct (aborting row) eqn:Hrow; simpl.
  - by rewrite (extract_row_aborting _ _ Hrow).
  - destruct (extract_row_not_aborting df row Hrow) as [df1 ->]. simpl.
    apply IH.
Qed.

End Frame.

(** ** The frame that [transform] builds *)

Lemma elem_of_add_label x label cols :
  x ∈ add_label label cols <-> x = label \/ x ∈ cols.
Proof.
  unfold add_label. case_decide.
  - split; [by right | by intros [->|]].
  - rewrite elem_of_app, list_elem_of_singleton. tauto.
Qed.

Lemma add_label_in label cols : label ∈ cols -> add_label label cols = cols.
Proof. intros H. unfold add_label. by rewrite decide_True. Qed.

Lemma with_currency_labels_idem cols :
  with_currency_labels (with_currency_labels cols) = with_currency_labels cols.
Proof.
  unfold with_currency_labels at 1.
  rewrite (add_label_in "MC_GBP_Billion").
  2: { unfold with_currency_labels. rewrite !elem_of_add_label. tauto. }
  rewrite (add_label_in "MC_EUR_Billion").
  2: { unfold with_currency_labels. rewrite !elem_of_add_label. tauto. }
  apply add_label_in.
  unfold with_currency_labels. rewrite !elem_of_add_label. tauto.
Qed.

Lemma transform_columns_frame df exchange_rate gbp eur inr :
  RecordSet df ->
  exchange_rate !! "GBP" = Some gbp ->
  exchange_rate !! "EUR" = Some eur ->
  exchange_rate !! "INR" = Some inr ->
  transform_columns df exchange_rate =
    Ok {| columns := with_currency_labels (columns df);
          rows := List.map (converted3 gbp eur inr) (rows df) |}.
Proof.
  intros Hdf Hg He Hi. unfold transform_columns.
  rewrite (add_currency_Ok _ _ _ _ _ Hdf Hg). simpl.
  pose proof (with_column_RecordSet "MC_GBP_Billion" gbp df
                ltac:(done) ltac:(done) Hdf) as Hdf1.
  rewrite (add_currency_Ok _ _ _ _ _ Hdf1 He). simpl.
  pose proof (with_column_RecordSet "MC_EUR_Billion" eur _
                ltac:(done) ltac:(done) Hdf1) as Hdf2.
  rewrite (add_currency_Ok _ _ _ _ _ Hdf2 Hi). simpl.
  unfold with_column. simpl. do 2 f_equal.
  rewrite !map_map. apply map_ext. intros r.
  unfold converted3. unfold converted at 1.
  rewrite !usd_of_converted by done. unfold converted at 1.
  rewrite !usd_of_converted by done. reflexivity.
Qed.

Lemma usd_of_converted3 gbp eur inr r :
  usd_of (converted3 gbp eur inr r) = usd_of r.
Proof. unfold usd_of, converted3. by rewrite !lookup_insert_ne. Qed.

Lemma converted3_idem gbp eur inr r :
  converted3 gbp eur inr (converted3 gbp eur inr r) = converted3 gbp eur inr r.
Proof.
  unfold converted3 at 1. rewrite usd_of_converted3. unfold converted3.
  apply map_eq. intros k. rewrite !lookup_insert.
  repeat case_decide; congruence.
Qed.

Lemma is_record_converted3 gbp eur inr r :
  is_record r = true -> is_record (converted3 gbp eur inr r) = true.
Proof. unfold is_record, converted3. by rewrite !lookup_insert_ne. Qed.

(** ** Further properties: extraction *)

(** X8.  On a page whose first table body has rows, none of them aborting,
    [extract] returns and its frame holds exactly one record per eligible
    row, in the order of the rows; rows without data cells or with fewer
    than three are passed over. *)
Theorem eligible_rows_become_records parse_float soup table_attribs table0
    tables :
  Soup.find_all "tbody" soup = table0 :: tables ->
  Soup.find_all "tr" table0 ≠ [] ->
  existsb aborting (Soup.find_all "tr" table0) = false ->
  exists df,
    extract_soup parse_float soup table_attribs = Ok df
    /\ Forall2 (emitted parse_float)
         (List.filter eligible (Soup.find_all "tr" table0)) (rows df)
    /\ length (rows df) =
         length (List.filter eligible (Soup.find_all "tr" table0)).
Proof.
  intros Htables Hrows Hgood. unfold extract_soup. rewrite Htables.
  destruct (Soup.find_all "tr" table0) as [|row trs] eqn:E; [done|].
  pose proof (extract_rows_outcome parse_float (row :: trs)
                (Pandas.empty table_attribs)) as Hout.
  rewrite Hgood in Hout. destruct Hout as [df Hdf].
  exists df. split; [done|].
  apply extract_rows_Ok in Hdf as (recs & Hr & Hrecs). simpl in Hr.
  rewrite Hr. split; [done|]. symmetry. by eapply Forall2_length.
Qed.

Lemma eligible_rows_become_records_witness :
  exists df,
    extract_soup FloatSyntax.float_of_str
      (Sample.page [Sample.row_a; Sample.row_short; Sample.row_b])
      table_attributes = Ok df
    /\ Forall2 (emitted FloatSyntax.float_of_str)
         (List.filter eligible
            (Soup.find_all "tr"
               (Sample.tbody [Sample.row_a; Sample.row_short; Sample.row_b])))
         (rows df)
    /\ length (rows df) =
         length
           (List.filter eligible
              (Soup.find_all "tr"
                 (Sample.tbody
                    [Sample.row_a; Sample.row_short; Sample.row_b]))).
Proof.
  apply (eligible_rows_become_records FloatSyntax.float_of_str
           (Sample.page [Sample.row_a; Sample.row_short; Sample.row_b])
           table_attributes
           (Sample.tbody [Sample.row_a; Sample.row_short; Sample.row_b]) []).
  - reflexivity.
  - discriminate.
  - reflexivity.
Defined.

(** X9.  On a page whose first table body has rows, [extract] raises
    [TypeError] exactly when one of the rows is eligible and has an element
    at the start of its third cell, and returns a frame exactly when there
    is no such row. *)
Theorem extract_raises_exactly_on_aborting_row parse_float soup table_attribs
    table0 tables :
  Soup.find_all "tbody" soup = table0 :: tables ->
  Soup.find_all "tr" table0 ≠ [] ->
  (extract_soup parse_float soup table_attribs = Raise TypeError
   <-> existsb aborting (Soup.find_all "tr" table0) = true)
  /\ ((exists df, extract_soup parse_float soup table_attribs = Ok df)
      <-> existsb aborting (Soup.find_all "tr" table0) = false).
Proof.
  intros Htables Hrows. unfold extract_soup. rewrite Htables.
  destruct (Soup.find_all "tr" table0) as [|row trs] eqn:E; [done|].
  pose proof (extract_rows_outcome parse_float (row :: trs)
                (Pandas.empty table_attribs)) as Hout.
  destruct (existsb aborting (row :: trs)).
  - rewrite Hout. split; [done|]. split; [by intros [df ?] | done].
  - destruct Hout as [df ->]. split; [done|]. split; [done | eauto].
Qed.

Lemma extract_raises_exactly_on_aborting_row_witness :
  (extract_soup FloatSyntax.float_of_str Sample.page_eab table_attributes =
     Raise TypeError
   <-> existsb aborting
         (Soup.find_all "tr"
            (Sample.tbody [Sample.row_e; Sample.row_a; Sample.row_b])) = true)
  /\ ((exists df,
         extract_soup FloatSyntax.float_of_str Sample.page_eab
           table_attributes = Ok df)
      <-> existsb aborting
            (Soup.find_all "tr"
               (Sample.tbody [Sample.row_e; Sample.row_a; Sample.row_b])) =
          false).
Proof.
  apply (extract_raises_exactly_on_aborting_row FloatSyntax.float_of_str
           Sample.page_eab table_attributes
           (Sample.tbody [Sample.row_e; Sample.row_a; Sample.row_b]) []).
  - reflexivity.
  - discriminate.
Defined.

(** X10.  The labels of the frame [extract] returns are the labels it was
    given, followed, once a record has been appended, by those of [Name] and
    [MC_USD_Billion] that were not among them; with the labels of the script
    they are these two. *)
Theorem extract_schema parse_float soup table_attribs table0 tables df :
  Soup.find_all "tbody" soup = table0 :: tables ->
  extract_soup parse_float soup table_attribs = Ok df ->
  columns df =
    (if existsb eligible (Soup.find_all "tr" table0)
     then with_record_labels table_attribs
     else table_attribs)
  /\ (table_attribs = table_attributes -> columns df = table_attributes).
Proof.
  intros Htables. unfold extract_soup. rewrite Htables.
  destruct (Soup.find_all "tr" table0) as [|row trs] eqn:E; [done|].
  intros H. apply extract_rows_columns in H.
  change (columns (Pandas.empty table_attribs)) with table_attribs in H.
  split; [done|]. intros ->. rewrite H.
  destruct (existsb eligible (row :: trs)); reflexivity.
Qed.

Lemma extract_schema_witness :
  columns Sample.two_banks =
    (if existsb eligible
          (Soup.find_all "tr" (Sample.tbody [Sample.row_a; Sample.row_b]))
     then with_record_labels table_attributes
     else table_attributes)
  /\ (table_attributes = table_attributes ->
      columns Sample.two_banks = table_attributes).
Proof.
  apply (extract_schema FloatSyntax.float_of_str Sample.page_ab
           table_attributes (Sample.tbody [Sample.row_a; Sample.row_b]) []
           Sample.two_banks).
  - reflexivity.
  - vm_compute. reflexivity.
Defined.

Lemma extract_rows_no_eligible parse_float trs : forall df,
  existsb eligible trs = false -> extract_rows parse_float df trs = Ok df.
Proof.
  induction trs as [|row trs IH]; intros df; simpl; [done|].
  rewrite orb_false_iff. intros [Hrow Htrs].
  rewrite (extract_row_skip _ _ _ Hrow). simpl. by apply IH.
Qed.

Lemma filter_existsb_false {A} (f : A -> bool) (l : list A) :
  existsb f l = false -> List.filter f l = [].
Proof.
  induction l as [|x l IH]; simpl; [done|].
  rewrite orb_false_iff. intros [-> Hl]. by apply IH.
Qed.

(** X11.  Every row of the frame [extract] returns carries a text under
    [Name] and a float under [MC_USD_Billion]; when the frame has a row, or
    the labels given to [extract] include [MC_USD_Billion], it has that
    column, so it is a frame [transform] can read. *)
Theorem extract_gives_records parse_float soup table_attribs df :
  extract_soup parse_float soup table_attribs = Ok df ->
  forallb is_record (rows df) = true
  /\ ("MC_USD_Billion" ∈ table_attribs \/ rows df ≠ [] -> RecordSet df).
Proof.
  unfold extract_soup.
  destruct (Soup.find_all "tbody" soup) as [|table0 tables]; [done|].
  destruct (Soup.find_all "tr" table0) as [|row trs]; [done|].
  intros H.
  assert (Hrec : forallb is_record (rows df) = true).
  { by apply (extract_rows_records _ _ _ _ H). }
  split; [done|]. intros Hcases. split; [|done].
  pose proof (extract_rows_columns _ _ _ _ H) as Hcols.
  change (columns (Pandas.empty table_attribs)) with table_attribs in Hcols.
  rewrite Hcols.
  destruct (existsb eligible (row :: trs)) eqn:Hel.
  - apply record_label_in. in_list.
  - destruct Hcases as [Hin|Hrows]; [done|].
    apply extract_rows_Ok in H as (recs & Hr & Hrecs).
    rewrite (filter_existsb_false _ _ Hel) in Hrecs.
    inversion Hrecs; subst. by rewrite Hr in Hrows.
Qed.

Lemma extract_gives_records_witness :
  forallb is_record (rows Sample.two_banks) = true
  /\ ("MC_USD_Billion" ∈ table_attributes \/ rows Sample.two_banks ≠ [] ->
      RecordSet Sample.two_banks).
Proof.
  apply (extract_gives_records FloatSyntax.float_of_str Sample.page_ab
           table_attributes Sample.two_banks).
  vm_compute. reflexivity.
Defined.

(** X13.  When [extract] is given labels without [MC_USD_Billion] and the
    rows of the page yield no record, it returns the empty frame over these
    labels, and [transform] then raises [KeyError] for the missing column,
    whatever the rates are. *)
Theorem frame_without_metric_column parse_float soup table_attribs table0
    tables :
  Soup.find_all "tbody" soup = table0 :: tables ->
  Soup.find_all "tr" table0 ≠ [] ->
  existsb eligible (Soup.find_all "tr" table0) = false ->
  "MC_USD_Billion" ∉ table_attribs ->
  extract_soup parse_float soup table_attribs = Ok (Pandas.empty table_attribs)
  /\ forall exchange_rate,
       transform_columns (Pandas.empty table_attribs) exchange_rate =
         Raise (KeyError "MC_USD_Billion").
Proof.
  intros Htables Hrows Hel Hout. split.
  - unfold extract_soup. rewrite Htables.
    destruct (Soup.find_all "tr" table0) as [|row trs] eqn:E; [done|].
    by apply extract_rows_no_eligible.
  - intros exchange_rate.
    unfold transform_columns, add_currency, Pandas.getitem. simpl.
    by rewrite decide_False.
Qed.

Lemma frame_without_metric_column_witness :
  extract_soup FloatSyntax.float_of_str Sample.header_only ["Name"] =
    Ok (Pandas.empty ["Name"])
  /\ forall exchange_rate,
       transform_columns (Pandas.empty ["Name"]) exchange_rate =
         Raise (KeyError "MC_USD_Billion").
Proof.
  apply (frame_without_metric_column FloatSyntax.float_of_str
           Sample.header_only ["Name"]
           (Sample.tbody
              [Sample.el "tr" [Sample.el "th" [Sample.text "Bank name"]]])
           []).
  - reflexivity.
  - discriminate.
  - reflexivity.
  - intros H. apply list_elem_of_singleton in H. discriminate.
Defined.

(** ** Further properties: conversion *)

(** X12.  Converting twice changes nothing more: on a frame of records and
    with the three rates, [transform] returns a frame on which a second call
    of [transform], in any world with the same rate file, returns that same
    frame. *)
Theorem transform_twice df path lines gbp eur inr w w2 :
  RecordSet df ->
  rate_files w path = Some lines ->
  rate_files w2 path = Some lines ->
  Pandas.to_dict lines !! "GBP" = Some gbp ->
  Pandas.to_dict lines !! "EUR" = Some eur ->
  Pandas.to_dict lines !! "INR" = Some inr ->
  exists df',
    (transform df path w).2 = Ok df'
    /\ (transform df' path w2).2 = Ok df'.
Proof.
  intros Hdf Hw Hw2 Hg He Hi.
  pose proof (transform_columns_frame _ _ _ _ _ Hdf Hg He Hi) as Hrun.
  eexists. split.
  { by rewrite (transform_run _ _ _ _ Hw), Hrun. }
  rewrite (transform_run _ _ _ _ Hw2).
  rewrite (transform_columns_frame _ _ gbp eur inr); try done.
  - simpl. rewrite with_currency_labels_idem, map_map.
    do 2 f_equal. apply map_ext. intros r. apply converted3_idem.
  - destruct Hdf as [Hcol Hrows]. split; simpl.
    + unfold with_currency_labels. rewrite !elem_of_add_label. tauto.
    + rewrite forallb_forall in *. intros r' Hr'.
      apply in_map_iff in Hr' as (r & <- & Hr).
      apply is_record_converted3. auto.
Qed.

Lemma transform_twice_witness :
  exists df',
    (transform Sample.two_banks csv_path
       (Sample.world_of Sample.page_ab Sample.rate_lines)).2 = Ok df'
    /\ (transform df' csv_path
          (transform Sample.two_banks csv_path
             (Sample.world_of Sample.page_ab Sample.rate_lines)).1).2 = Ok df'.
Proof.
  apply (transform_twice Sample.two_banks csv_path Sample.rate_lines
           (Sample.dec "0.8") (Sample.dec "0.9") (Sample.dec "80.0")).
  - split; [in_list | reflexivity].
  - reflexivity.
  - reflexivity.
  - vm_compute; reflexivity.
  - vm_compute; reflexivity.
  - vm_compute; reflexivity.
Defined.

Lemma np_round_zero rate :
  positive_finite rate = true ->
  Float.np_round (Float.mul Float.zero rate) 2 = Float.zero.
Proof. destruct rate as [| | |[] m e]; try done. Qed.

(** X14.  A record whose metric is 0.0, as the fallback of [extract] leaves
    it, has 0.0 in the three derived columns after [transform], for positive
    finite rates. *)
Theorem zero_metric_converts_to_zero df path lines gbp eur inr w :
  RecordSet df ->
  rate_files w path = Some lines ->
  Pandas.to_dict lines !! "GBP" = Some gbp ->
  Pandas.to_dict lines !! "EUR" = Some eur ->
  Pandas.to_dict lines !! "INR" = Some inr ->
  positive_finite gbp = true ->
  positive_finite eur = true ->
  positive_finite inr = true ->
  exists df',
    (transform df path w).2 = Ok df'
    /\ forall k r,
         rows df !! k = Some r -> usd_of r = Float.zero ->
         exists r',
           rows df' !! k = Some r'
           /\ r' !! "MC_GBP_Billion" = Some (CFloat Float.zero)
           /\ r' !! "MC_EUR_Billion" = Some (CFloat Float.zero)
           /\ r' !! "MC_INR_Billion" = Some (CFloat Float.zero).
Proof.
  intros Hdf Hw Hg He Hi Pg Pe Pi.
  pose proof (transform_columns_frame _ _ _ _ _ Hdf Hg He Hi) as Hrun.
  eexists. split.
  { by rewrite (transform_run _ _ _ _ Hw), Hrun. }
  simpl. intros k r Hk Hzero. exists (converted3 gbp eur inr r). split.
  { change (List.map ?f ?l) with (f <$> l). by rewrite list_lookup_fmap, Hk. }
  unfold converted3. rewrite Hzero, !np_round_zero by done.
  repeat split.
  - rewrite lookup_insert_ne by done. rewrite lookup_insert_ne by done.
    by rewrite lookup_insert_eq.
  - rewrite lookup_insert_ne by done. by rewrite lookup_insert_eq.
  - by rewrite lookup_insert_eq.
Qed.

Lemma zero_metric_converts_to_zero_witness :
  exists df',
    (transform Sample.two_banks csv_path
       (Sample.world_of Sample.page_ab Sample.rate_lines)).2 = Ok df'
    /\ forall k r,
         rows Sample.two_banks !! k = Some r -> usd_of r = Float.zero ->
         exists r',
           rows df' !! k = Some r'
           /\ r' !! "MC_GBP_Billion" = Some (CFloat Float.zero)
           /\ r' !! "MC_EUR_Billion" = Some (CFloat Float.zero)
           /\ r' !! "MC_INR_Billion" = Some (CFloat Float.zero).
Proof.
  apply (zero_metric_converts_to_zero Sample.two_banks csv_path
           Sample.rate_lines (Sample.dec "0.8") (Sample.dec "0.9")
           (Sample.dec "80.0")).
  - split; [in_list | reflexivity].
  - reflexivity.
  - vm_compute; reflexivity.
  - vm_compute; reflexivity.
  - vm_compute; reflexivity.
  - vm_compute; reflexivity.
  - vm_compute; reflexivity.
  - vm_compute; reflexivity.
Defined.

(** ** Further properties: loading and querying *)

Lemma runs_execute
    (execute : gmap string DataFrame -> string
               -> gmap string DataFrame * result (list string))
    query w tables r csv :
  csv_files w = csv ->
  execute (db_tables w) query = (tables, r) ->
  runs (fun w' =>
          let '(tables', r') := execute (db_tables w') query in
          (set_db_tables w' tables', r'))
    w r [] [] csv tables.
Proof.
  intros <- Hex. unfold runs. cbv beta. rewrite Hex.
  split; [done|]. unfold effect. simpl. by rewrite !app_nil_r.
Qed.

Lemma runs_run_query_on_Ok execute query w tables results csv :
  csv_files w = csv ->
  execute (db_tables w) query = (tables, Ok results) ->
  runs (run_query_on execute query) w (Ok tt) (messages_of_query query)
    (statement_line query :: results) csv tables.
Proof.
  intros Hcsv Hex. unfold run_query_on.
  eapply runs_seq;
    [apply (runs_log_progress _ w csv (db_tables w)); done
    | intros Hc Hd | done | done].
  eapply runs_seq;
    [apply (runs_execute execute query _ tables (Ok results) csv);
       [done | by rewrite Hd]
    | intros ? ? | done | done].
  stage runs_print.
  eapply runs_seq; [apply runs_print_all; sinks_known | intros ? ? | done |].
  - last_stage runs_log_progress.
  - unfold statement_line. simpl. by rewrite app_nil_r.
Qed.

Lemma runs_run_query_on_Raise execute query w tables e csv :
  csv_files w = csv ->
  execute (db_tables w) query = (tables, Raise e) ->
  runs (run_query_on execute query) w (Raise e) [query_started query] []
    csv tables.
Proof.
  intros Hcsv Hex. unfold run_query_on.
  eapply runs_seq;
    [apply (runs_log_progress _ w csv (db_tables w)); done
    | intros Hc Hd | done | done].
  apply runs_bind_Raise.
  apply (runs_execute execute query _ tables (Raise e) csv);
    [done | by rewrite Hd].
Qed.

(** X6.  [run_query] over any database engine, which may reject the
    statement and may change the tables.  It first logs the statement.  When
    the engine answers, [run_query] returns; it has printed the statement,
    after an empty line, and then every row of the answer, in order, and has
    logged the completion message.  When the engine raises, [run_query]
    raises the same exception; it has printed nothing and has not logged the
    completion message.  Either way the CSV files are as before and the
    tables are as the engine left them.  The [run_query] of the script is the
    case of an engine that answers and leaves the tables alone. *)
Theorem run_query_outcomes execute query w tables :
  (forall results,
     execute (db_tables w) query = (tables, Ok results) ->
     (run_query_on execute query w).2 = Ok tt
     /\ stdout (run_query_on execute query w).1 =
          (stdout w ++ statement_line query :: results)%list
     /\ code_log (run_query_on execute query w).1 =
          (code_log w
             ++ stamped (strftime_now w) (ticks w)
                  [query_started query; "Query execution completed"])%list
     /\ csv_files (run_query_on execute query w).1 = csv_files w
     /\ db_tables (run_query_on execute query w).1 = tables)
  /\ (forall e,
        execute (db_tables w) query = (tables, Raise e) ->
        (run_query_on execute query w).2 = Raise e
        /\ stdout (run_query_on execute query w).1 = stdout w
        /\ code_log (run_query_on execute query w).1 =
             (code_log w
                ++ stamped (strftime_now w) (ticks w)
                     [query_started query])%list
        /\ csv_files (run_query_on execute query w).1 = csv_files w
        /\ db_tables (run_query_on execute query w).1 = tables)
  /\ (forall fetchall,
        run_query fetchall query w =
          run_query_on
            (fun tables' query' => (tables', Ok (fetchall tables' query')))
            query w).
Proof.
  split; [|split].
  - intros results Hex.
    destruct (runs_run_query_on_Ok execute query w tables results
                (csv_files w) eq_refl Hex)
      as (Hr & Hlog & _ & _ & _ & _ & Hout & Hcsv & Hdb).
    done.
  - intros e Hex.
    destruct (runs_run_query_on_Raise execute query w tables e
                (csv_files w) eq_refl Hex)
      as (Hr & Hlog & _ & _ & _ & _ & Hout & Hcsv & Hdb).
    rewrite app_nil_r in Hout. done.
  - intros fetchall. unfold run_query, run_query_on.
    destruct w. reflexivity.
Qed.

Lemma run_query_outcomes_witness :
  ((run_query_on (Sample.rejecting (Exception "sqlite3.OperationalError"))
      "SELECT * FROM Missing"
      (Sample.world_of (Sample.page []) Sample.rate_lines)).2 =
     Raise (Exception "sqlite3.OperationalError")
   /\ stdout
        (run_query_on (Sample.rejecting (Exception "sqlite3.OperationalError"))
           "SELECT * FROM Missing"
           (Sample.world_of (Sample.page []) Sample.rate_lines)).1 = [])
  /\ (run_query_on (Sample.answering ["('Global Bank',)"])
        "SELECT Name FROM Largest_banks LIMIT 5"
        (Sample.world_of (Sample.page []) Sample.rate_lines)).2 = Ok tt
  /\ stdout
       (run_query_on (Sample.answering ["('Global Bank',)"])
          "SELECT Name FROM Largest_banks LIMIT 5"
          (Sample.world_of (Sample.page []) Sample.rate_lines)).1 =
       [statement_line "SELECT Name FROM Largest_banks LIMIT 5";
        "('Global Bank',)"].
Proof.
  split; [split|split].
  - apply (run_query_outcomes
             (Sample.rejecting (Exception "sqlite3.OperationalError"))
             "SELECT * FROM Missing"
             (Sample.world_of (Sample.page []) Sample.rate_lines) ∅).
    reflexivity.
  - apply (proj1 (proj2 (run_query_outcomes
             (Sample.rejecting (Exception "sqlite3.OperationalError"))
             "SELECT * FROM Missing"
             (Sample.world_of (Sample.page []) Sample.rate_lines) ∅))
             (Exception "sqlite3.OperationalError") eq_refl).
  - apply (proj1 (run_query_outcomes
             (Sample.answering ["('Global Bank',)"])
             "SELECT Name FROM Largest_banks LIMIT 5"
             (Sample.world_of (Sample.page []) Sample.rate_lines) ∅)
             ["('Global Bank',)"] eq_refl).
  - apply (proj1 (run_query_outcomes
             (Sample.answering ["('Global Bank',)"])
             "SELECT Name FROM Largest_banks LIMIT 5"
             (Sample.world_of (Sample.page []) Sample.rate_lines) ∅)
             ["('Global Bank',)"] eq_refl).
Defined.


(** ** Further properties: the script *)

(** X1.  When the page can be fetched, its first table body has rows, none
    of them aborting, and the rate file has the three rates, the script
    returns.  The CSV file and the table [Largest_banks] then hold one and
    the same frame: five columns, and one row per eligible row of the page,
    in order, with its three conversions.  The log has gained the sixteen
    messages of a full run, and the terminal the answers to the three
    queries, asked of the new table. *)
Theorem script_succeeds parse_float fetchall w soup table0 tables lines
    gbp eur inr :
  web w url = Some soup ->
  Soup.find_all "tbody" soup = table0 :: tables ->
  Soup.find_all "tr" table0 ≠ [] ->
  existsb aborting (Soup.find_all "tr" table0) = false ->
  rate_files w csv_path = Some lines ->
  Pandas.to_dict lines !! "GBP" = Some gbp ->
  Pandas.to_dict lines !! "EUR" = Some eur ->
  Pandas.to_dict lines !! "INR" = Some inr ->
  exists df recs,
    Forall2 (emitted parse_float)
      (List.filter eligible (Soup.find_all "tr" table0)) recs
    /\ df = {| columns := final_columns;
               rows := List.map (converted3 gbp eur inr) recs |}
    /\ runs (main parse_float fetchall) w (Ok tt) messages_of_main
         (flat_map
            (printed fetchall (<["Largest_banks" := df]> (db_tables w)))
            queries)
         (<[output_csv_path := df]> (csv_files w))
         (<["Largest_banks" := df]> (db_tables w)).
Proof.
  intros Hweb Htables Hrows Hgood Hfile Hg He Hi.
  assert (Hex : exists df0,
            extract_soup parse_float soup table_attributes = Ok df0
            /\ Forall2 (emitted parse_float)
                 (List.filter eligible (Soup.find_all "tr" table0)) (rows df0)
            /\ columns df0 = table_attributes).
  { unfold extract_soup. rewrite Htables.
    destruct (Soup.find_all "tr" table0) as [|row trs] eqn:E; [done|].
    pose proof (extract_rows_outcome parse_float (row :: trs)
                  (Pandas.empty table_attributes)) as Hout.
    rewrite Hgood in Hout. destruct Hout as [df0 Hdf0].
    exists df0. split; [done|].
    pose proof (extract_rows_columns _ _ _ _ Hdf0) as Hcols.
    apply extract_rows_Ok in Hdf0 as (recs & Hr & Hrecs). simpl in Hr.
    rewrite Hr. split; [done|]. rewrite Hcols.
    destruct (existsb eligible (row :: trs)); reflexivity. }
  destruct Hex as (df0 & Hdf0 & Hrecs & Hcols).
  assert (Hset : RecordSet df0).
  { split.
    - rewrite Hcols. unfold table_attributes. in_list.
    - clear Hdf0 Hcols.
      induction Hrecs as [|row r trs recs Hr _ IH]; simpl; [done|].
      by rewrite (emitted_is_record _ _ _ Hr). }
  pose proof (transform_columns_frame _ _ _ _ _ Hset Hg He Hi) as Hrun.
  rewrite Hcols in Hrun.
  change (with_currency_labels table_attributes) with final_columns in Hrun.
  pose proof (main_outcomes parse_float fetchall w) as Hmain.
  rewrite Hweb, Hdf0, Hfile, Hrun in Hmain.
  eexists _, (rows df0). split; [done|]. split; [reflexivity|]. exact Hmain.
Qed.

Lemma script_succeeds_witness :
  exists df recs,
    Forall2 (emitted FloatSyntax.float_of_str)
      (List.filter eligible
         (Soup.find_all "tr" (Sample.tbody [Sample.row_a; Sample.row_b])))
      recs
    /\ df = {| columns := final_columns;
               rows :=
                 List.map
                   (converted3 (Sample.dec "0.8") (Sample.dec "0.9")
                      (Sample.dec "80.0"))
                   recs |}
    /\ runs (main FloatSyntax.float_of_str Sample.no_answers)
         (Sample.world_of Sample.page_ab Sample.rate_lines) (Ok tt)
         messages_of_main
         (flat_map
            (printed Sample.no_answers
               (<["Largest_banks" := df]>
                  (db_tables
                     (Sample.world_of Sample.page_ab Sample.rate_lines))))
            queries)
         (<[output_csv_path := df]>
            (csv_files (Sample.world_of Sample.page_ab Sample.rate_lines)))
         (<["Largest_banks" := df]>
            (db_tables (Sample.world_of Sample.page_ab Sample.rate_lines))).
Proof.
  apply (script_succeeds FloatSyntax.float_of_str Sample.no_answers
           (Sample.world_of Sample.page_ab Sample.rate_lines) Sample.page_ab
           (Sample.tbody [Sample.row_a; Sample.row_b]) [] Sample.rate_lines).
  - reflexivity.
  - reflexivity.
  - discriminate.
  - reflexivity.
  - reflexivity.
  - vm_compute; reflexivity.
  - vm_compute; reflexivity.
  - vm_compute; reflexivity.
Defined.

(** X2.  A run of the script either returns, with one and the same frame
    written to the CSV file and to the table [Largest_banks], or raises in
    [extract] or [transform], with the CSV files, the tables and the
    terminal left as they were.  (The writes and the queries themselves are
    taken to go through, as everywhere in this development.) *)
Theorem script_all_or_nothing parse_float fetchall w :
  (exists df,
     (main parse_float fetchall w).2 = Ok tt
     /\ csv_files (main parse_float fetchall w).1 =
          <[output_csv_path := df]> (csv_files w)
     /\ db_tables (main parse_float fetchall w).1 =
          <["Largest_banks" := df]> (db_tables w))
  \/ (exists e,
        (main parse_float fetchall w).2 = Raise e
        /\ csv_files (main parse_float fetchall w).1 = csv_files w
        /\ db_tables (main parse_float fetchall w).1 = db_tables w
        /\ stdout (main parse_float fetchall w).1 = stdout w).
Proof.
  pose proof (main_outcomes parse_float fetchall w) as H.
  assert (Hfail : forall e msgs,
            runs (main parse_float fetchall) w (Raise e) msgs []
              (csv_files w) (db_tables w) ->
            exists e,
              (main parse_float fetchall w).2 = Raise e
              /\ csv_files (main parse_float fetchall w).1 = csv_files w
              /\ db_tables (main parse_float fetchall w).1 = db_tables w
              /\ stdout (main parse_float fetchall w).1 = stdout w).
  { intros e msgs (Hr & _ & _ & _ & _ & _ & Hout & Hcsv & Hdb).
    exists e. rewrite app_nil_r in Hout. done. }
  destruct (web w url) as [soup|]; [|right; by eapply Hfail].
  destruct (extract_soup parse_float soup table_attributes) as [df|e];
    [|right; by eapply Hfail].
  destruct (rate_files w csv_path) as [lines|]; [|right; by eapply Hfail].
  destruct (transform_columns df (Pandas.to_dict lines)) as [df'|e];
    [|right; by eapply Hfail].
  left. exists df'.
  destruct H as (Hr & _ & _ & _ & _ & _ & _ & Hcsv & Hdb). done.
Qed.

(** X3.  Whatever happens, the script only appends to the log: the log
    after a run is the log before it followed by an initial part of the
    sixteen messages of a full run, in their order, each stamped with the
    next reading of the clock; it is all sixteen exactly when the script
    returns. *)
Theorem script_log_grows parse_float fetchall w :
  exists msgs,
    code_log (main parse_float fetchall w).1 =
      (code_log w ++ stamped (strftime_now w) (ticks w) msgs)%list
    /\ msgs `prefix_of` messages_of_main
    /\ ((main parse_float fetchall w).2 = Ok tt <-> msgs = messages_of_main).
Proof.
  pose proof (main_outcomes parse_float fetchall w) as H.
  assert (Hfail : forall e msgs,
            msgs `prefix_of` messages_of_main ->
            msgs ≠ messages_of_main ->
            runs (main parse_float fetchall) w (Raise e) msgs []
              (csv_files w) (db_tables w) ->
            exists msgs,
              code_log (main parse_float fetchall w).1 =
                (code_log w ++ stamped (strftime_now w) (ticks w) msgs)%list
              /\ msgs `prefix_of` messages_of_main
              /\ ((main parse_float fetchall w).2 = Ok tt
                  <-> msgs = messages_of_main)).
  { intros e msgs Hpre Hne (Hr & Hlog & _). exists msgs.
    split; [done|]. split; [done|]. rewrite Hr. split; [done|].
    intros ->. done. }
  assert (H1 : messages_until_extract `prefix_of` messages_of_main)
    by (eexists; reflexivity).
  assert (H2 : messages_until_transform `prefix_of` messages_of_main)
    by (eexists; reflexivity).
  destruct (web w url) as [soup|];
    [|exact (Hfail _ _ H1 ltac:(discriminate) H)].
  destruct (extract_soup parse_float soup table_attributes) as [df|e];
    [|exact (Hfail _ _ H1 ltac:(discriminate) H)].
  destruct (rate_files w csv_path) as [lines|];
    [|exact (Hfail _ _ H2 ltac:(discriminate) H)].
  destruct (transform_columns df (Pandas.to_dict lines)) as [df'|e];
    [|exact (Hfail _ _ H2 ltac:(discriminate) H)].
  destruct H as (Hr & Hlog & _). exists messages_of_main.
  split; [done|]. split; [done|]. by rewrite Hr.
Qed.

(** X4.  When the page cannot be fetched, the script raises the I/O error
    of the request right after the two messages that announce the run and
    the extraction; nothing is printed and the sinks are as they were. *)
Theorem script_page_unreachable parse_float fetchall w :
  web w url = None ->
  runs (main parse_float fetchall) w (Raise (OSError url))
    messages_until_extract [] (csv_files w) (db_tables w).
Proof.
  intros Hweb. pose proof (main_outcomes parse_float fetchall w) as H.
  by rewrite Hweb in H.
Qed.

Lemma script_page_unreachable_witness :
  runs (main FloatSyntax.float_of_str Sample.no_answers)
    (Sample.offline Sample.rate_lines) (Raise (OSError url))
    messages_until_extract []
    (csv_files (Sample.offline Sample.rate_lines))
    (db_tables (Sample.offline Sample.rate_lines)).
Proof.
  apply (script_page_unreachable FloatSyntax.float_of_str Sample.no_answers
           (Sample.offline Sample.rate_lines)).
  reflexivity.
Defined.

(** X5.  When the page was scraped but the rate file cannot be read, the
    script raises the I/O error of [read_csv] after the start message of
    [transform]; the frame is lost, nothing is printed and the sinks are as
    they were. *)
Theorem script_rates_unreadable parse_float fetchall w soup df :
  web w url = Some soup ->
  extract_soup parse_float soup table_attributes = Ok df ->
  rate_files w csv_path = None ->
  runs (main parse_float fetchall) w (Raise (OSError csv_path))
    messages_until_transform [] (csv_files w) (db_tables w).
Proof.
  intros Hweb Hdf Hfile.
  pose proof (main_outcomes parse_float fetchall w) as H.
  by rewrite Hweb, Hdf, Hfile in H.
Qed.

Lemma script_rates_unreadable_witness :
  runs (main FloatSyntax.float_of_str Sample.no_answers)
    (Sample.without_rates Sample.page_ab) (Raise (OSError csv_path))
    messages_until_transform []
    (csv_files (Sample.without_rates Sample.page_ab))
    (db_tables (Sample.without_rates Sample.page_ab)).
Proof.
  apply (script_rates_unreadable FloatSyntax.float_of_str Sample.no_answers
           (Sample.without_rates Sample.page_ab) Sample.page_ab
           Sample.two_banks).
  - reflexivity.
  - vm_compute. reflexivity.
  - reflexivity.
Defined.

(** X15.  [extract] writes one line to the log when it starts and a second
    one only when it returns a frame; whatever its outcome, it raises the
    I/O error when the page cannot be fetched, and it leaves the sinks, the
    terminal and the rate files alone. *)
Theorem extract_effect parse_float u table_attribs w :
  (web w u = None ->
   (extract parse_float u table_attribs w).2 = Raise (OSError u))
  /\ (exists msgs,
        code_log (extract parse_float u table_attribs w).1 =
          (code_log w ++ stamped (strftime_now w) (ticks w) msgs)%list
        /\ (msgs = messages_of_extract
            /\ (exists df, (extract parse_float u table_attribs w).2 = Ok df)
            \/ msgs = ["Starting data extraction."]
               /\ exists e,
                    (extract parse_float u table_attribs w).2 = Raise e))
  /\ sinks (extract parse_float u table_attribs w).1 = sinks w
  /\ stdout (extract parse_float u table_attribs w).1 = stdout w
  /\ rate_files (extract parse_float u table_attribs w).1 = rate_files w.
Proof.
  pose proof (runs_extract parse_float u table_attribs w (csv_files w)
                (db_tables w) eq_refl eq_refl) as H.
  destruct (web w u) as [soup|].
  - destruct (extract_soup parse_float soup table_attribs) as [df|e];
      destruct H as (Hr & Hlog & _ & _ & _ & Hrate & Hout & Hcsv & Hdb);
      rewrite app_nil_r in Hout; unfold sinks; rewrite Hcsv, Hdb;
      (split; [done|]); (split; [|done]); eexists; (split; [exact Hlog|]).
    + left. eauto.
    + right. eauto.
  - destruct H as (Hr & Hlog & _ & _ & _ & Hrate & Hout & Hcsv & Hdb).
    rewrite app_nil_r in Hout. unfold sinks. rewrite Hcsv, Hdb.
    split; [done|]. split; [|done]. eexists. split; [exact Hlog|].
    right. eauto.
Qed.
